(** * In-place major-version downgrade: trigger and executor

    A shallow embedding of

      - [pkg/reconciler/majorupgrade/downgrade.go]
        ([ReconcileDowngrade], [createMajorDowngradeJobDefinition]), and
      - the [downgrade execute] command ([executeDowngrade]),

    together with the properties the specification states about them.

    Go's [int] is modelled as [Z] (the code only compares versions and
    serials, it does no arithmetic on them), Go's [error] as the
    inductive type [error] below with [None : option error] for [nil],
    and every call that leaves the process (an external tool, a system
    call, a request to the API server) as an operation whose failure is
    decided by the environment. *)

From Stdlib Require Import String Ascii List Bool ZArith Lia.
From Stdlib Require Import DecimalString.
Import ListNotations.

Local Open Scope string_scope.
Local Open Scope list_scope.

(* ================================================================= *)
(** * Errors *)

(** [errors_New] is an error made from a message alone
    ([fmt.Errorf] without a verb), [ErrNotExist] and [ErrInvalid] are
    the system-call errors the file operations can report on their own,
    [ExitError] is what a tool that exits with a non-zero status yields,
    and [Wrapf msg e] is [fmt.Errorf(msg + ": %w", e)]. *)
Inductive error : Type :=
| errors_New (msg : string)
| ErrNotExist (path : string)
| ErrInvalid (path : string)
| ExitError (tool : string) (status : Z)
| Wrapf (msg : string) (cause : error).

(** [err.Error()]. *)
Fixpoint Error (e : error) : string :=
  match e with
  | errors_New msg => msg
  | ErrNotExist p => p ++ ": no such file or directory"
  | ErrInvalid p => p ++ ": invalid argument"
  | ExitError tool _ => tool ++ ": exit status"
  | Wrapf msg cause => msg ++ ": " ++ Error cause
  end.

(** [errors.Unwrap]. *)
Definition Unwrap (e : error) : option error :=
  match e with
  | Wrapf _ cause => Some cause
  | _ => None
  end.

(** [os.IsNotExist]: it looks at the error itself and does not follow
    [%w] wrappers. *)
Definition os_IsNotExist (e : error) : bool :=
  match e with
  | ErrNotExist _ => true
  | _ => false
  end.

(* ================================================================= *)
(** * Paths *)

(** Go's [path.Join] and [path.Clean], which [executeDowngrade] uses to
    name the files in the data directory, by the rules their
    documentation gives: multiple slashes count as one, [.] elements
    are dropped, an inner [..] is dropped with the element before it,
    and a [..] that begins a rooted path is dropped.  The same rules
    decide which location of the file system a path names: the model
    has no symbolic links, and two paths with the same cleaned form
    name the same file. *)

Module path.

(** The elements of a path between its slashes; never the empty list. *)
Fixpoint split (s : string) : list string :=
  match s with
  | EmptyString => [""]
  | String c s' =>
      if Ascii.eqb c "/" then "" :: split s'
      else match split s' with
           | [] => [String c ""]
           | x :: xs => String c x :: xs
           end
  end.

Definition rooted (s : string) : bool :=
  match s with
  | String c _ => Ascii.eqb c "/"
  | EmptyString => false
  end.

(** One step of [path.Clean], on the elements kept so far (innermost
    first): empty elements and [.] are dropped, [..] removes the element
    before it, is dropped at the root, and is kept at the start of a
    path that is not rooted. *)
Definition cleanStep (root : bool) (stack : list string) (c : string)
  : list string :=
  if (c =? "") || (c =? ".") then stack
  else if c =? ".." then
    match stack with
    | [] => if root then [] else [".."]
    | top :: below => if top =? ".." then ".." :: stack else below
    end
  else c :: stack.

(** A location: whether the path is rooted, and its cleaned elements,
    outermost first.  Two paths that [path.Clean] makes equal name the
    same location. *)
Definition key : Type := (bool * list string)%type.

Definition resolve (s : string) : key :=
  (rooted s, rev (fold_left (cleanStep (rooted s)) (split s) [])).

Fixpoint join (cs : list string) : string :=
  match cs with
  | [] => ""
  | [c] => c
  | c :: cs' => c ++ "/" ++ join cs'
  end.

Definition render (k : key) : string :=
  match k with
  | (true, cs) => "/" ++ join cs
  | (false, []) => "."
  | (false, cs) => join cs
  end.

(** [path.Clean]. *)
Definition Clean (s : string) : string :=
  if s =? "" then "." else render (resolve s).

(** [path.Join] of two elements: empty elements are ignored, the rest is
    joined with a slash and cleaned; all empty gives the empty string. *)
Definition Join (a b : string) : string :=
  if a =? "" then (if b =? "" then "" else Clean b)
  else if b =? "" then Clean a
  else Clean (a ++ "/" ++ b).

Fixpoint prefixb (d k : list string) : bool :=
  match d, k with
  | [], _ => true
  | x :: d', y :: k' => (x =? y) && prefixb d' k'
  | _ :: _, [] => false
  end.

(** [under d k]: [k] is [d] or lies below it. *)
Definition under (d k : key) : bool :=
  Bool.eqb (fst d) (fst k) && prefixb (snd d) (snd k).

Definition key_eqb (a b : key) : bool :=
  Bool.eqb (fst a) (fst b)
  && if list_eq_dec string_dec (snd a) (snd b) then true else false.

(** The location that lies below [dst] where [k] lies below [src]. *)
Definition rebase (src dst k : key) : key :=
  (fst dst, snd dst ++ skipn (length (snd src)) (snd k)).

(** A path element holds no slash; a plain element is moreover none of
    the empty element, [.] and [..]. *)
Fixpoint noslash (s : string) : bool :=
  match s with
  | EmptyString => true
  | String c s' => negb (Ascii.eqb c "/") && noslash s'
  end.

Definition plain (c : string) : bool :=
  noslash c && negb (c =? "") && negb (c =? ".") && negb (c =? "..").

(** The elements that [path.Clean] keeps, innermost first: none is
    empty or [.], none holds a slash, and [..] stands only at the
    start of a path that is not rooted. *)
Definition allDotDot (st : list string) : bool :=
  forallb (fun c => c =? "..") st.

Fixpoint wfStack (root : bool) (st : list string) : bool :=
  match st with
  | [] => true
  | c :: below =>
      noslash c && negb (c =? "") && negb (c =? ".")
      && (if c =? ".." then negb root && allDotDot below
          else true)
      && wfStack root below
  end.

End path.

(* ================================================================= *)
(** * The executor: [downgrade execute] *)

Module downgrade.

(** ** The machine the executor runs on *)

(** What a file holds is only followed as far as the executor shapes it:
    the dump that [pg_dumpall] writes, and what [sed -i] makes of a
    file. *)
Inductive Content : Type :=
| Text (t : string)
| DumpAll (instance : option path.key)
| SedInPlace (args : list string) (before : Content).

(** A directory is an ordinary one, or a database directory: the one
    that was there before the downgrade, one that [initdb] has just
    made, or one into which [psql] has replayed a file, with what that
    file held. *)
Inductive DirKind : Type :=
| Plain
| PgExisting
| PgFresh
| PgRestored (replayed : Content).

Inductive Node : Type :=
| File (c : Content)
| Dir (d : DirKind).

Definition FS : Type := path.key -> option Node.

(** The file system and the data directory of the running PostgreSQL
    instance, if one runs. *)
Record Machine : Type := mkMachine {
  fs : FS;
  postmaster : option path.key
}.

Definition lookup (p : string) (m : Machine) : option Node :=
  fs m (path.resolve p).

Definition fs_set (k : path.key) (n : Node) (f : FS) : FS :=
  fun q => if path.key_eqb k q then Some n else f q.

Definition fs_del (k : path.key) (f : FS) : FS :=
  fun q => if path.key_eqb k q then None else f q.

(** [rename(2)] of a directory: all that was at or below [src] is at or
    below [dst] afterwards, replacing what was there. *)
Definition fs_move (src dst : path.key) (f : FS) : FS :=
  fun q =>
    if path.under dst q then f (path.rebase dst src q)
    else if path.under src q then None
    else f q.

Definition fs_delTree (d : path.key) (f : FS) : FS :=
  fun q => if path.under d q then None else f q.

(** ** Operations *)

(** [exec.Command(name, args...)]. *)
Record Cmd : Type := Command { Path : string; Args : list string }.

(** The calls of [executeDowngrade] that leave the process. *)
Inductive Op : Type :=
| OpEnsureDirectoryExists (dir : string)
| OpRemove (name : string)
| OpRename (oldpath newpath : string)
| OpRemoveAll (p : string)
| OpRunStreaming (cmd : Cmd) (name : string)
| OpRun (cmd : Cmd).

(** The environment: where the socket directory is
    ([postgres.GetSocketDir]), and which operations fail, for reasons
    the executor cannot see (the exit status of a tool, a permission).
    The verdict may depend on the operation and on the machine. *)
Record Env : Type := mkEnv {
  GetSocketDir : string;
  fault : Op -> Machine -> option error
}.

(** What a tool does when it exits with status zero, as far as the
    executor relies on it: [sed -i] rewrites the file it is given last,
    if that is a file; [pg_ctl -D dir ... start] and [... stop] start
    and stop the instance; [pg_dumpall -f file] writes the dump of the
    running instance to [file]; [initdb -D dir] makes a new database
    directory at [dir]; [psql -f file] replays [file] into the running
    instance, if [file] is a file, and replays nothing if it is handed
    the path of no file.  Whether a tool exits with status zero is for
    the environment to say, not for this function: the executor takes
    the exit status for the whole outcome of a tool.  The socket and
    the lock file that a running instance keeps in the socket directory
    are not followed. *)
Definition toolEffect (cmd : Cmd) (m : Machine) : Machine :=
  let tool := Path cmd in
  if tool =? "sed" then
    match rev (Args cmd) with
    | file :: _ =>
        match lookup file m with
        | Some (File c) =>
            mkMachine (fs_set (path.resolve file)
                         (File (SedInPlace (Args cmd) c)) (fs m))
                      (postmaster m)
        | _ => m
        end
    | [] => m
    end
  else if tool =? "pg_ctl" then
    match Args cmd with
    | _ :: d :: rest =>
        match rev rest with
        | verb :: _ =>
            if verb =? "start"
            then mkMachine (fs m) (Some (path.resolve d))
            else if verb =? "stop" then mkMachine (fs m) None
            else m
        | [] => m
        end
    | _ => m
    end
  else if tool =? "pg_dumpall" then
    match Args cmd with
    | [_; file] =>
        mkMachine (fs_set (path.resolve file)
                     (File (DumpAll (postmaster m))) (fs m))
                  (postmaster m)
    | _ => m
    end
  else if tool =? "initdb" then
    match Args cmd with
    | _ :: d :: _ =>
        mkMachine (fs_set (path.resolve d) (Dir PgFresh) (fs m))
                  (postmaster m)
    | _ => m
    end
  else if tool =? "psql" then
    match Args cmd, postmaster m with
    | _ :: file :: _, Some k =>
        match lookup file m with
        | Some (File c) =>
            mkMachine (fs_set k (Dir (PgRestored c)) (fs m)) (postmaster m)
        | _ => m
        end
    | _, _ => m
    end
  else m.

(** The failures an operation reports on its own: [os.Remove] and
    [os.Rename] of what is not there, and a rename of a directory to a
    place below itself. *)
Definition refusal (op : Op) (m : Machine) : option error :=
  match op with
  | OpRemove name =>
      match lookup name m with
      | None => Some (ErrNotExist name)
      | Some _ => None
      end
  | OpRename oldpath newpath =>
      match lookup oldpath m with
      | None => Some (ErrNotExist oldpath)
      | Some _ =>
          if path.under (path.resolve oldpath) (path.resolve newpath)
             && negb (path.key_eqb (path.resolve oldpath)
                                   (path.resolve newpath))
          then Some (ErrInvalid newpath)
          else None
      end
  | _ => None
  end.

(** What an operation that succeeds does to the machine. *)
Definition effect (op : Op) (m : Machine) : Machine :=
  match op with
  | OpEnsureDirectoryExists dir =>
      match lookup dir m with
      | None => mkMachine (fs_set (path.resolve dir) (Dir Plain) (fs m))
                          (postmaster m)
      | Some _ => m
      end
  | OpRemove name =>
      mkMachine (fs_del (path.resolve name) (fs m)) (postmaster m)
  | OpRename oldpath newpath =>
      mkMachine (fs_move (path.resolve oldpath) (path.resolve newpath)
                   (fs m))
                (postmaster m)
  | OpRemoveAll p =>
      mkMachine (fs_delTree (path.resolve p) (fs m)) (postmaster m)
  | OpRunStreaming cmd _ => toolEffect cmd m
  | OpRun cmd => toolEffect cmd m
  end.

Definition outcome (env : Env) (op : Op) (m : Machine) : option error :=
  match refusal op m with
  | Some e => Some e
  | None => fault env op m
  end.

(** ** Runs *)

(** An entry of the log: the operation, how it ended, and the machine
    it found. *)
Record Event : Type := mkEvent {
  ev_op : Op;
  ev_result : option error;
  ev_seen : Machine
}.

Record World : Type := mkWorld {
  machine : Machine;
  events : list Event
}.

Definition M (A : Type) : Type := World -> A * World.

Definition ret {A} (a : A) : M A := fun w => (a, w).

Definition bind {A B} (c : M A) (k : A -> M B) : M B :=
  fun w => let (a, w') := c w in k a w'.

(** An operation that fails leaves the machine as it found it. *)
Definition perform (env : Env) (op : Op) : M (option error) :=
  fun w =>
    let r := outcome env op (machine w) in
    (r, mkWorld (match r with
                 | None => effect op (machine w)
                 | Some _ => machine w
                 end)
                (events w ++ [mkEvent op r (machine w)])).

Definition fileutils_EnsureDirectoryExists env dir :=
  perform env (OpEnsureDirectoryExists dir).
Definition os_Remove env name := perform env (OpRemove name).
Definition os_Rename env oldpath newpath :=
  perform env (OpRename oldpath newpath).
Definition os_RemoveAll env p := perform env (OpRemoveAll p).
Definition execlog_RunStreaming env cmd name :=
  perform env (OpRunStreaming cmd name).
Definition exec_Run env cmd := perform env (OpRun cmd).

Local Notation "x <- c ;; k" := (bind c (fun x => k))
  (at level 61, c at next level, right associativity).

(** [if err := c; err != nil { return fmt.Errorf(msg + ": %w", err) }] *)
Local Notation "'check' c 'orReturn' msg ;; k" :=
  (bind c (fun err => match err with
                      | Some e => ret (Some (Wrapf msg e))
                      | None => k
                      end))
  (at level 61, c at next level, msg at next level,
   right associativity).

(** [err != nil && !os.IsNotExist(err)] *)
Definition unlessNotExist (err : option error) : option error :=
  match err with
  | Some e => if os_IsNotExist e then None else Some e
  | None => None
  end.

(** ** [executeDowngrade] *)

Section Execute.

Variable env : Env.
Variable pgData : string.

Definition dumpFile : string := path.Join pgData "downgrade_dump.sql".

Definition stripCmd : Cmd :=
  Command "sed" ["-i"; "/include.*custom.conf/d";
                 path.Join pgData "postgresql.conf"].
Definition startCmd : Cmd := Command "pg_ctl" ["-D"; pgData; "-w"; "start"].
Definition dumpCmd : Cmd := Command "pg_dumpall" ["-f"; dumpFile].
Definition stopCmd : Cmd := Command "pg_ctl" ["-D"; pgData; "-w"; "stop"].
Definition cleanupStopCmd : Cmd := Command "pg_ctl" ["-D"; pgData; "stop"].
(** The source declares [sedCmd] with [:=] a second time for this
    command; the model takes it for the command the step runs. *)
Definition sanitizeCmd : Cmd :=
  Command "sed"
    ["-i"; "-E";
     "s/LOCALE_PROVIDER = \w+ |^SET transaction_timeout = 0;| WITH INHERIT TRUE GRANTED BY \w+//";
     dumpFile].
Definition initCmd : Cmd :=
  Command "initdb" ["-D"; pgData; "--username"; "postgres"].
Definition restoreCmd : Cmd := Command "psql" ["-f"; dumpFile; "postgres"].

Definition executeDowngrade : M (option error) :=
  if pgData =? "" then ret (Some (errors_New "PGDATA not set")) else
  check fileutils_EnsureDirectoryExists env (GetSocketDir env)
    orReturn "while creating socket directory" ;;
  (* Remove incompatible config files *)
  err <- os_Remove env (path.Join pgData "custom.conf") ;;
  match unlessNotExist err with
  | Some e => ret (Some (Wrapf "failed to remove custom.conf" e))
  | None =>
  check execlog_RunStreaming env stripCmd "sed" orReturn "sed failed" ;;
  (* Start the existing PostgreSQL instance to dump data *)
  check execlog_RunStreaming env startCmd "pg_ctl"
    orReturn "pg_ctl start failed" ;;
  (* Dump all data from the running cluster *)
  err <- execlog_RunStreaming env dumpCmd "pg_dumpall" ;;
  match err with
  | Some e =>
      _ <- exec_Run env cleanupStopCmd ;;
      ret (Some (Wrapf "pg_dumpall failed" e))
  | None =>
  (* Stop the old instance *)
  check execlog_RunStreaming env stopCmd "pg_ctl"
    orReturn "pg_ctl stop failed" ;;
  (* Clean up version-specific SQL *)
  check execlog_RunStreaming env sanitizeCmd "sed" orReturn "sed failed" ;;
  (* Backup old data directory *)
  check os_Rename env pgData (pgData ++ ".old")
    orReturn "failed to rename PGDATA" ;;
  (* Initialize new data directory with target version *)
  check execlog_RunStreaming env initCmd "initdb" orReturn "initdb failed" ;;
  (* Start new instance *)
  check execlog_RunStreaming env startCmd "pg_ctl"
    orReturn "pg_ctl start failed" ;;
  (* Restore data *)
  err <- execlog_RunStreaming env restoreCmd "psql" ;;
  match err with
  | Some e =>
      _ <- exec_Run env cleanupStopCmd ;;
      ret (Some (Wrapf "restore failed" e))
  | None =>
  (* Stop the new instance *)
  check execlog_RunStreaming env stopCmd "pg_ctl"
    orReturn "pg_ctl stop failed" ;;
  (* Clean up *)
  check os_RemoveAll env (pgData ++ ".old")
    orReturn "failed to remove old PGDATA" ;;
  ret None
  end end end.

End Execute.

(** ** The state of the data directory *)

(** Modelled from the spec: the on-disk state machine of the data
    directory.  [Original]: the directory that was there before the
    downgrade is at its place.  [Dumped]: moreover the dump file is
    written and no instance runs.  [BackedUp]: that directory is at the
    backup name and its own place is empty.  [Reinitialized]: a
    directory made by [initdb] is at its place.  [Restored]: the export
    of the instance that ran on the data directory has been replayed
    into the directory at its place.  [Finalized]: moreover the backup
    is gone. *)
Inductive DataDirectoryState : Type :=
| Original | Dumped | BackedUp | Reinitialized | Restored | Finalized.

Definition isFile (n : option Node) : bool :=
  match n with
  | Some (File _) => true
  | _ => false
  end.

Definition stopped (m : Machine) : bool :=
  match postmaster m with
  | None => true
  | Some _ => false
  end.

(** What a file holds is the export of the instance on [k]: what
    [pg_dumpall] wrote of it, possibly edited with [sed -i]. *)
Fixpoint exportOf (k : path.key) (c : Content) : bool :=
  match c with
  | Text _ => false
  | DumpAll (Some k') => path.key_eqb k k'
  | DumpAll None => false
  | SedInPlace _ before => exportOf k before
  end.

Definition dirState (pgData : string) (m : Machine)
  : option DataDirectoryState :=
  match lookup pgData m, lookup (pgData ++ ".old") m with
  | Some (Dir PgExisting), _ =>
      if isFile (lookup (dumpFile pgData) m) && stopped m
      then Some Dumped else Some Original
  | None, Some (Dir PgExisting) => Some BackedUp
  | Some (Dir PgFresh), Some (Dir PgExisting) => Some Reinitialized
  | Some (Dir (PgRestored c)), Some (Dir PgExisting) =>
      if exportOf (path.resolve pgData) c then Some Restored else None
  | Some (Dir (PgRestored c)), None =>
      if exportOf (path.resolve pgData) c then Some Finalized else None
  | _, _ => None
  end.

Definition state_eqb (a b : option DataDirectoryState) : bool :=
  match a, b with
  | None, None => true
  | Some Original, Some Original => true
  | Some Dumped, Some Dumped => true
  | Some BackedUp, Some BackedUp => true
  | Some Reinitialized, Some Reinitialized => true
  | Some Restored, Some Restored => true
  | Some Finalized, Some Finalized => true
  | _, _ => false
  end.

(** A list without its immediate repetitions. *)
Fixpoint distinctRuns (l : list (option DataDirectoryState))
  : list (option DataDirectoryState) :=
  match l with
  | [] => []
  | a :: rest =>
      match rest with
      | [] => [a]
      | b :: _ => if state_eqb a b then distinctRuns rest
                  else a :: distinctRuns rest
      end
  end.

(** The states the data directory went through: its state before each
    operation of the log and at the end. *)
Definition progress (pgData : string) (w : World)
  : list (option DataDirectoryState) :=
  distinctRuns (map (dirState pgData)
                    (map ev_seen (events w) ++ [machine w])).

(** An operation of the log succeeded if it reported no error; the
    removal of a file that is not there counts, since the executor
    takes the absence of [custom.conf] for no error. *)
Definition succeeded (ev : Event) : bool :=
  match ev_result ev with
  | None => true
  | Some e =>
      match ev_op ev with
      | OpRemove _ => os_IsNotExist e
      | _ => false
      end
  end.

(** An environment whose [psql] does not exit with status zero when
    the file it is to replay is not there, as [psql] does not. *)
Definition psqlNeedsItsFile (env : Env) : Prop :=
  forall flag file rest name m,
    isFile (lookup file m) = false ->
    fault env (OpRunStreaming (Command "psql" (flag :: file :: rest)) name) m
    <> None.

(** A run from a machine, with an empty log. *)
Definition start (m : Machine) : World := mkWorld m [].

Definition run (env : Env) (pgData : string) (m : Machine)
  : option error * World :=
  executeDowngrade env pgData (start m).

End downgrade.

(* ================================================================= *)
(** * The trigger: [ReconcileDowngrade] *)

Module majorupgrade.

Definition jobMajorDowngrade : string := "major-downgrade".

(** [cluster.Status.PGDataImageInfo]. *)
Record ImageInfo : Type := mkImageInfo {
  Image : string;
  MajorVersion : Z
}.

(** The fields of [apiv1.Cluster] the trigger reads or writes. *)
Record Cluster : Type := mkCluster {
  Name : string;
  ImageName : string;
  Status_PGDataImageInfo : option ImageInfo;
  Status_Phase : string;
  Status_PhaseReason : string
}.

Record Pod : Type := mkPod { pod_name : string }.

(** A persistent volume claim of a cluster member: the role its labels
    give it and the node serial its annotations carry, if they carry a
    readable one. *)
Record PersistentVolumeClaim : Type := mkPVC {
  pvc_role : string;
  pvc_serial : option Z
}.

(** Modelled from the spec: [specs.CreatePrimaryJob] and the job type it
    fills are not among the sources.  An execution unit is a one-shot,
    node-pinned task description: the command, the node it is pinned to
    and the owner reference; the cluster it is built for and the role
    name that [CreatePrimaryJob] receives are kept with it. *)
Record Job : Type := mkJob {
  job_cluster : string;
  job_targetNode : Z;
  job_role : string;
  job_command : list string;
  job_owner : option string
}.

Definition specs_CreatePrimaryJob (cluster : Cluster) (nodeSerial : Z)
    (role : string) (initCommand : list string) : Job :=
  mkJob (Name cluster) nodeSerial role initCommand None.

(** [ctrl.Result]. *)
Record Result : Type := mkResult { Requeue : bool }.

(** What the trigger asks of the API server. *)
Inductive Request : Type :=
| ReqPhase (phase reason : string)
| ReqCreate (job : Job).

(** The cluster entity (the object behind the [*apiv1.Cluster] the
    trigger is handed), the execution units the API server holds, and
    the requests made so far. *)
Record State : Type := mkState {
  cluster : Cluster;
  jobs : list Job;
  requests : list Request
}.

(** [client.Client]: which of the trigger's requests fail is for the
    client to say; the verdict may depend on the request and on the
    state.  [Scheme_fault] is the failure of looking the owner up in
    [c.Scheme()]. *)
Record Client : Type := mkClient {
  phase_fault : string -> string -> State -> option error;
  Scheme_fault : Cluster -> option error;
  create_fault : Job -> State -> option error
}.

Definition T (A : Type) : Type := State -> A * State.

Definition ret {A} (a : A) : T A := fun st => (a, st).

Definition bind {A B} (c : T A) (k : A -> T B) : T B :=
  fun st => let (a, st') := c st in k a st'.

Local Notation "x <- c ;; k" := (bind c (fun x => k))
  (at level 61, c at next level, right associativity).

Definition readCluster : T Cluster := fun st => (cluster st, st).

Definition setPhase (cl : Cluster) (phase reason : string) : Cluster :=
  mkCluster (Name cl) (ImageName cl) (Status_PGDataImageInfo cl)
            phase reason.

(** Modelled from the spec: [registerPhase] is not among the sources.
    It records a phase string and a human-readable message on the
    cluster entity; when the request fails the entity is left as it
    was. *)
Definition registerPhase (c : Client) (phase reason : string)
  : T (option error) :=
  fun st =>
    let r := phase_fault c phase reason st in
    (r, mkState (match r with
                 | None => setPhase (cluster st) phase reason
                 | Some _ => cluster st
                 end)
                (jobs st)
                (requests st ++ [ReqPhase phase reason])).

(** [ctrl.SetControllerReference(owner, job, scheme)]: makes [owner]
    the controller of [job]. *)
Definition ctrl_SetControllerReference (owner : Cluster) (job : Job)
    (scheme_fault : Cluster -> option error) : Job * option error :=
  match scheme_fault owner with
  | Some e => (job, Some e)
  | None =>
      (mkJob (job_cluster job) (job_targetNode job) (job_role job)
             (job_command job) (Some (Name owner)),
       None)
  end.

(** [c.Create(ctx, job)]: a create that succeeds adds the unit to those
    the API server holds. *)
Definition Create (c : Client) (job : Job) : T (option error) :=
  fun st =>
    let r := create_fault c job st in
    (r, mkState (cluster st)
                (match r with
                 | None => jobs st ++ [job]
                 | Some _ => jobs st
                 end)
                (requests st ++ [ReqCreate job])).

(** A client that refuses to create a unit the API server already
    holds. *)
Definition refusesDuplicates (c : Client) : Prop :=
  forall job st, In job (jobs st) -> create_fault c job st <> None.

(** [%v] of an [int]. *)
Definition format_int (z : Z) : string :=
  NilZero.string_of_int (Z.to_int z).

Definition createMajorDowngradeJobDefinition (cluster : Cluster)
    (nodeSerial : Z) : Job :=
  let downgradeCommand :=
    ["/controller/manager"; "instance"; "downgrade"; "execute"] in
  let job :=
    specs_CreatePrimaryJob cluster nodeSerial jobMajorDowngrade
                           downgradeCommand in
  job.

Section Reconcile.

(** The parts of the repository that [ReconcileDowngrade] calls and
    that are not among the sources: the parse of the declared version
    ([cluster.GetPostgresqlMajorVersion]), the lookup of the primary's
    node serial in the volume claims ([getPrimarySerial]), both with
    Go's pair of a value and an error, and the phase constant
    [apiv1.PhaseMajorUpgrade]. *)
Variable GetPostgresqlMajorVersion : Cluster -> Z * option error.
Variable getPrimarySerial : list PersistentVolumeClaim -> Z * option error.
Variable PhaseMajorUpgrade : string.

Definition isSome {A} (o : option A) : bool :=
  match o with Some _ => true | None => false end.

(** ReconcileDowngrade handles major version downgrades *)
Definition ReconcileDowngrade (c : Client) (instances : list Pod)
    (pvcs : list PersistentVolumeClaim)
  : T (option Result * option error) :=
  cl <- readCluster ;;
  let (requestedMajor, err) := GetPostgresqlMajorVersion cl in
  match err with
  | Some e => ret (None, Some e)
  | None =>
  match Status_PGDataImageInfo cl with
  | None => ret (None, None)
  | Some info =>
  if (requestedMajor >=? MajorVersion info)%Z then ret (None, None) else
  let (primaryNodeSerial, err) := getPrimarySerial pvcs in
  if isSome err || (primaryNodeSerial =? 0)%Z then ret (None, err) else
  err <- registerPhase c PhaseMajorUpgrade
           ("Downgrading cluster from version "
              ++ format_int (MajorVersion info) ++ " to "
              ++ format_int requestedMajor) ;;
  match err with
  | Some e => ret (None, Some e)
  | None =>
  cl' <- readCluster ;;
  let job := createMajorDowngradeJobDefinition cl' primaryNodeSerial in
  let (job', err) := ctrl_SetControllerReference cl' job (Scheme_fault c) in
  match err with
  | Some e => ret (None, Some e)
  | None =>
  err <- Create c job' ;;
  match err with
  | Some e => ret (None, Some e)
  | None => ret (Some (mkResult true), None)
  end end end end end.

(** A downgrade is required when a recorded on-disk version exists and
    the target version is strictly less. *)
Definition downgradeRequired (cl : Cluster) (target : Z) : Prop :=
  exists info,
    Status_PGDataImageInfo cl = Some info
    /\ (target < MajorVersion info)%Z.

(** A primary resolves when the lookup gives a serial other than 0 and
    no error. *)
Definition primaryResolves (pvcs : list PersistentVolumeClaim) (n : Z)
  : Prop :=
  getPrimarySerial pvcs = (n, None) /\ n <> 0%Z.

(** The requests an invocation makes. *)
Definition issued (c : Client) (instances : list Pod)
    (pvcs : list PersistentVolumeClaim) (st : State) : list Request :=
  skipn (length (requests st))
        (requests (snd (ReconcileDowngrade c instances pvcs st))).

(** The unit the trigger asks for. *)
Definition downgradeUnit (cl : Cluster) (n : Z) : Job :=
  mkJob (Name cl) n "major-downgrade"
        ["/controller/manager"; "instance"; "downgrade"; "execute"]
        (Some (Name cl)).

Definition phaseReason (recorded target : Z) : string :=
  "Downgrading cluster from version " ++ format_int recorded
    ++ " to " ++ format_int target.

(** The three calls of the trigger that leave it -- the phase request,
    the lookup of the owner in the scheme, the creation of the unit --
    succeed, each on the state it finds. *)
Definition callsSucceed (c : Client) (st : State) (recorded target n : Z)
  : Prop :=
  let reason := phaseReason recorded target in
  let st1 :=
    mkState (setPhase (cluster st) PhaseMajorUpgrade reason) (jobs st)
            (requests st ++ [ReqPhase PhaseMajorUpgrade reason]) in
  phase_fault c PhaseMajorUpgrade reason st = None
  /\ Scheme_fault c (cluster st1) = None
  /\ create_fault c (downgradeUnit (cluster st) n) st1 = None.

(** The API server holds the unit the trigger would ask for. *)
Definition holdsUnit (pvcs : list PersistentVolumeClaim) (st : State)
  : Prop :=
  forall n,
    primaryResolves pvcs n -> In (downgradeUnit (cluster st) n) (jobs st).

(** The ways an invocation can go. *)
Inductive Course (c : Client) (pvcs : list PersistentVolumeClaim)
    (st : State) : option Result * option error * State -> Prop :=
| ParseFailed t e :
    GetPostgresqlMajorVersion (cluster st) = (t, Some e) ->
    Course c pvcs st (None, Some e, st)
| NotRequired t :
    GetPostgresqlMajorVersion (cluster st) = (t, None) ->
    ~ downgradeRequired (cluster st) t ->
    Course c pvcs st (None, None, st)
| NoPrimary t n err :
    GetPostgresqlMajorVersion (cluster st) = (t, None) ->
    downgradeRequired (cluster st) t ->
    getPrimarySerial pvcs = (n, err) ->
    err <> None \/ n = 0%Z ->
    Course c pvcs st (None, err, st)
| PhaseFailed t info n e :
    GetPostgresqlMajorVersion (cluster st) = (t, None) ->
    Status_PGDataImageInfo (cluster st) = Some info ->
    (t < MajorVersion info)%Z ->
    primaryResolves pvcs n ->
    phase_fault c PhaseMajorUpgrade (phaseReason (MajorVersion info) t) st
    = Some e ->
    Course c pvcs st
      (None, Some e,
       mkState (cluster st) (jobs st)
         (requests st
          ++ [ReqPhase PhaseMajorUpgrade (phaseReason (MajorVersion info) t)]))
| OwnerFailed t info n e :
    GetPostgresqlMajorVersion (cluster st) = (t, None) ->
    Status_PGDataImageInfo (cluster st) = Some info ->
    (t < MajorVersion info)%Z ->
    primaryResolves pvcs n ->
    phase_fault c PhaseMajorUpgrade (phaseReason (MajorVersion info) t) st
    = None ->
    Scheme_fault c (setPhase (cluster st) PhaseMajorUpgrade
                             (phaseReason (MajorVersion info) t))
    = Some e ->
    Course c pvcs st
      (None, Some e,
       mkState (setPhase (cluster st) PhaseMajorUpgrade
                         (phaseReason (MajorVersion info) t))
         (jobs st)
         (requests st
          ++ [ReqPhase PhaseMajorUpgrade (phaseReason (MajorVersion info) t)]))
| CreateFailed t info n e :
    GetPostgresqlMajorVersion (cluster st) = (t, None) ->
    Status_PGDataImageInfo (cluster st) = Some info ->
    (t < MajorVersion info)%Z ->
    primaryResolves pvcs n ->
    create_fault c (downgradeUnit (cluster st) n)
      (mkState (setPhase (cluster st) PhaseMajorUpgrade
                         (phaseReason (MajorVersion info) t))
         (jobs st)
         (requests st
          ++ [ReqPhase PhaseMajorUpgrade (phaseReason (MajorVersion info) t)]))
    = Some e ->
    phase_fault c PhaseMajorUpgrade (phaseReason (MajorVersion info) t) st
    = None ->
    Scheme_fault c (setPhase (cluster st) PhaseMajorUpgrade
                             (phaseReason (MajorVersion info) t))
    = None ->
    Course c pvcs st
      (None, Some e,
       mkState (setPhase (cluster st) PhaseMajorUpgrade
                         (phaseReason (MajorVersion info) t))
         (jobs st)
         ((requests st
           ++ [ReqPhase PhaseMajorUpgrade
                        (phaseReason (MajorVersion info) t)])
          ++ [ReqCreate (downgradeUnit (cluster st) n)]))
| Scheduled t info n :
    GetPostgresqlMajorVersion (cluster st) = (t, None) ->
    Status_PGDataImageInfo (cluster st) = Some info ->
    (t < MajorVersion info)%Z ->
    primaryResolves pvcs n ->
    create_fault c (downgradeUnit (cluster st) n)
      (mkState (setPhase (cluster st) PhaseMajorUpgrade
                         (phaseReason (MajorVersion info) t))
         (jobs st)
         (requests st
          ++ [ReqPhase PhaseMajorUpgrade (phaseReason (MajorVersion info) t)]))
    = None ->
    phase_fault c PhaseMajorUpgrade (phaseReason (MajorVersion info) t) st
    = None ->
    Scheme_fault c (setPhase (cluster st) PhaseMajorUpgrade
                             (phaseReason (MajorVersion info) t))
    = None ->
    Course c pvcs st
      (Some (mkResult true), None,
       mkState (setPhase (cluster st) PhaseMajorUpgrade
                         (phaseReason (MajorVersion info) t))
         (jobs st ++ [downgradeUnit (cluster st) n])
         ((requests st
           ++ [ReqPhase PhaseMajorUpgrade
                        (phaseReason (MajorVersion info) t)])
          ++ [ReqCreate (downgradeUnit (cluster st) n)])).

End Reconcile.

End majorupgrade.

(* ================================================================= *)
(** * Sample environments *)

Module samples.

Import downgrade majorupgrade.

(** An environment in which nothing fails. *)
Definition quiet : Env := mkEnv "/controller/run" (fun _ _ => None).

(** An environment in which the named tool exits with status 1. *)
Definition failingTool (tool : string) : Env :=
  mkEnv "/controller/run"
    (fun op _ =>
       match op with
       | OpRunStreaming cmd _ =>
           if Path cmd =? tool then Some (ExitError tool 1) else None
       | _ => None
       end).

(** An environment in which every rename is refused. *)
Definition failingRename : Env :=
  mkEnv "/controller/run"
    (fun op _ =>
       match op with
       | OpRename _ newpath => Some (errors_New "permission denied")
       | _ => None
       end).

(** An environment in which [psql -f file] exits with status 1 when
    [file] is no file, as [psql] does, and nothing else fails. *)
Definition psqlNeedsFile : Env :=
  mkEnv "/controller/run"
    (fun op m =>
       match op with
       | OpRunStreaming (Command tool (_ :: file :: _)) _ =>
           if tool =? "psql" then
             match lookup file m with
             | Some (File _) => None
             | _ => Some (ExitError "psql" 1)
             end
           else None
       | _ => None
       end).

(** A host with a database directory at [/var/lib/pg], its two
    configuration files, and no instance running. *)
Definition host : Machine :=
  mkMachine
    (fs_set (path.resolve "/var/lib/pg") (Dir PgExisting)
       (fs_set (path.resolve "/var/lib/pg/postgresql.conf")
               (File (Text "include 'custom.conf'"))
          (fs_set (path.resolve "/var/lib/pg/custom.conf")
                  (File (Text "shared_buffers = 128MB"))
             (fun _ => None))))
    None.

(** An entry to stand for the entries a log does not have. *)
Definition noEvent : Event := mkEvent (OpRemove "") None host.

Definition eventAt (n : nat) (w : World) : Event := nth n (events w) noEvent.

(** The runs on the sample host: with nothing failing, with a rename
    that is refused, with an export that fails, and with a [psql] that
    needs its file. *)
Definition quietRun := run quiet "/var/lib/pg" host.
Definition renameRun := run failingRename "/var/lib/pg" host.
Definition dumpRun := run (failingTool "pg_dumpall") "/var/lib/pg" host.
Definition psqlRun := run psqlNeedsFile "/var/lib/pg" host.

(** Modelled from the spec: [GetPostgresqlMajorVersion] is not among
    the sources.  The declared target version must be parseable; here
    it is declared as a decimal number. *)
Definition declaredMajor (cl : Cluster) : Z * option error :=
  match NilZero.int_of_string (ImageName cl) with
  | Some i => (Z.of_int i, None)
  | None => (0%Z, Some (errors_New "cannot parse the declared version"))
  end.

(** Modelled from the spec: [getPrimarySerial] is not among the
    sources.  The primary is the member whose volume claim carries the
    primary role; its node serial is read from the claim, which can
    fail; with no such claim the serial is 0, the serial of no node. *)
Fixpoint primarySerial (pvcs : list PersistentVolumeClaim)
  : Z * option error :=
  match pvcs with
  | [] => (0%Z, None)
  | pvc :: rest =>
      if pvc_role pvc =? "primary" then
        match pvc_serial pvc with
        | Some n => (n, None)
        | None => (0%Z, Some (errors_New "no node serial on the claim"))
        end
      else primarySerial rest
  end.

Definition phaseMajorUpgrade : string := "Upgrading Postgres major version".

(** A client none of whose requests fail. *)
Definition obliging : Client :=
  mkClient (fun _ _ _ => None) (fun _ => None) (fun _ _ => None).

(** A client that refuses to create a unit the API server already
    holds for the same cluster, node and role. *)
Definition strict : Client :=
  mkClient (fun _ _ _ => None) (fun _ => None)
    (fun job st =>
       if existsb (fun j => (job_cluster j =? job_cluster job)
                            && (job_targetNode j =? job_targetNode job)%Z
                            && (job_role j =? job_role job))
                  (jobs st)
       then Some (errors_New "already exists")
       else None).

(** A client whose create requests all fail. *)
Definition refusing : Client :=
  mkClient (fun _ _ _ => None) (fun _ => None)
    (fun _ _ => Some (errors_New "forbidden")).

(** A cluster whose data directory is on version 17 and whose declared
    version is 15, with no units. *)
Definition pg17to15 : State :=
  mkState (mkCluster "pg" "15" (Some (mkImageInfo "postgres:17" 17))
                     "Cluster in healthy state" "")
          [] [].

Definition members : list PersistentVolumeClaim :=
  [mkPVC "replica" (Some 1%Z); mkPVC "primary" (Some 2%Z)].

End samples.

(* ================================================================= *)
(** * The [execute] command *)

Module command.

Import downgrade.

(** The flags of [execute] as given on the command line: [None] for a
    flag that is not given. *)
Record Flags : Type := mkFlags {
  pg_data : option string;
  pod_name : option string;
  namespace : option string;
  cluster_name : option string
}.

(** [cmd.Flags().StringVar(&v, name, value, usage)]: [v] holds [value]
    unless the flag is given. *)
Definition StringVar (given : option string) (value : string) : string :=
  match given with
  | Some v => v
  | None => value
  end.

(** [postgres.NewInstance().WithNamespace(..).WithPodName(..)
    .WithClusterName(..)]. *)
Record Instance : Type := mkInstance {
  Namespace : string;
  PodName : string;
  ClusterName : string
}.

(** The [RunE] of [newExecuteCmd]: each variable defaults to the
    environment variable read with [os.Getenv] (the empty string when
    it is not set); the instance is built from three of them and handed
    to [executeDowngrade], which does not use it. *)
Definition newExecuteCmd_RunE (env : Env) (Getenv : string -> string)
    (flags : Flags) : M (option error) :=
  let pgData := StringVar (pg_data flags) (Getenv "PGDATA") in
  let podName := StringVar (pod_name flags) (Getenv "POD_NAME") in
  let namespace := StringVar (namespace flags) (Getenv "NAMESPACE") in
  let clusterName := StringVar (cluster_name flags) (Getenv "CLUSTER_NAME") in
  let instance := mkInstance namespace podName clusterName in
  executeDowngrade env pgData.

(** The operations of [executeDowngrade] in the order of its text, the
    two cleanup stops apart. *)
Definition plan (env : Env) (pgData : string) : list Op :=
  [OpEnsureDirectoryExists (GetSocketDir env);
   OpRemove (path.Join pgData "custom.conf");
   OpRunStreaming (stripCmd pgData) "sed";
   OpRunStreaming (startCmd pgData) "pg_ctl";
   OpRunStreaming (dumpCmd pgData) "pg_dumpall";
   OpRunStreaming (stopCmd pgData) "pg_ctl";
   OpRunStreaming (sanitizeCmd pgData) "sed";
   OpRename pgData (pgData ++ ".old");
   OpRunStreaming (initCmd pgData) "initdb";
   OpRunStreaming (startCmd pgData) "pg_ctl";
   OpRunStreaming (restoreCmd pgData) "psql";
   OpRunStreaming (stopCmd pgData) "pg_ctl";
   OpRemoveAll (pgData ++ ".old")].

(** The operations the executor performs itself, not through a tool:
    [fileutils.EnsureDirectoryExists], [os.Remove], [os.Rename] and
    [os.RemoveAll]. *)
Definition ownOperation (op : Op) : bool :=
  match op with
  | OpRunStreaming _ _ | OpRun _ => false
  | _ => true
  end.

(** A location the executor has no business with: neither at or below
    the data directory, nor at or below the backup name, nor at, below
    or above the socket directory. *)
Definition foreign (env : Env) (pgData : string) (q : path.key) : bool :=
  negb (path.under (path.resolve pgData) q)
  && negb (path.under (path.resolve (pgData ++ ".old")) q)
  && negb (path.under (path.resolve (GetSocketDir env)) q)
  && negb (path.under q (path.resolve (GetSocketDir env))).

End command.

(* ================================================================= *)
(** * Facts about paths *)

Module PathFacts.

Import path.

Example Clean_examples :
  path.Clean "/var/lib//pg/" = "/var/lib/pg"
  /\ path.Clean "a/./b/../c" = "a/c"
  /\ path.Clean "/../x" = "/x"
  /\ path.Clean "../../x" = "../../x"
  /\ path.Clean "/" = "/"
  /\ path.Clean "" = "."
  /\ path.Join "/var/lib/pg" "custom.conf" = "/var/lib/pg/custom.conf"
  /\ path.Join "/var/lib/pg/" "custom.conf" = "/var/lib/pg/custom.conf".
Proof. repeat split; reflexivity. Qed.

Lemma split_nonempty s : path.split s <> [].
Proof.
  destruct s as [|c s]; simpl; [discriminate|].
  destruct (Ascii.eqb c "/"); [discriminate|].
  destruct (path.split s); discriminate.
Qed.

Lemma split_noslash s : noslash s = true -> path.split s = [s].
Proof.
  induction s as [|c s IH]; simpl; intros H; [reflexivity|].
  apply andb_true_iff in H as [Hc Hs].
  destruct (Ascii.eqb c "/"); [discriminate|].
  rewrite (IH Hs). reflexivity.
Qed.

Lemma split_elements_noslash s :
  Forall (fun c => noslash c = true) (path.split s).
Proof.
  induction s as [|c s IH]; simpl.
  - repeat constructor.
  - destruct (Ascii.eqb c "/") eqn:E.
    + constructor; [reflexivity|exact IH].
    + destruct (path.split s) as [|x xs].
      * repeat constructor. simpl. now rewrite E.
      * inversion IH; subst. constructor; [|assumption].
        simpl. now rewrite E.
Qed.

(** Appending [/] and more elements appends the elements. *)
Lemma split_app_slash p n :
  path.split (p ++ "/" ++ n) = path.split p ++ path.split n.
Proof.
  change ("/" ++ n)%string with (String "/" n).
  induction p as [|c p IH]; simpl; [reflexivity|].
  destruct (Ascii.eqb c "/"); [now rewrite IH|].
  rewrite IH. destruct (path.split p) as [|x xs] eqn:E; [|reflexivity].
  now destruct (split_nonempty p).
Qed.

(** Appending text without a slash extends the last element. *)
Lemma split_app_noslash p x :
  noslash x = true ->
  exists init l, path.split p = init ++ [l]
                 /\ path.split (p ++ x) = init ++ [(l ++ x)%string].
Proof.
  intros Hx. induction p as [|c p (init & l & E1 & E2)]; simpl.
  - exists [], "". split; [reflexivity|]. now rewrite split_noslash.
  - destruct (Ascii.eqb c "/").
    + exists ("" :: init), l. rewrite E1, E2. now split.
    + rewrite E1, E2. destruct init as [|i init]; simpl.
      * exists [], (String c l). now split.
      * exists (String c i :: init), l. now split.
Qed.

Lemma rooted_app p x : p <> "" -> path.rooted (p ++ x) = path.rooted p.
Proof. destruct p; [congruence|reflexivity]. Qed.

Lemma cleanStep_plain root st c :
  plain c = true -> path.cleanStep root st c = c :: st.
Proof.
  unfold plain, path.cleanStep. intros H.
  repeat (apply andb_true_iff in H as [H ?]).
  destruct (c =? ""), (c =? "."), (c =? ".."); simpl in *; congruence.
Qed.

Lemma resolve_child p n :
  p <> "" -> plain n = true ->
  path.resolve (p ++ "/" ++ n)
  = (fst (path.resolve p), snd (path.resolve p) ++ [n]).
Proof.
  intros Hp Hn. unfold path.resolve. simpl fst; simpl snd.
  rewrite (rooted_app p _ Hp), split_app_slash, fold_left_app.
  rewrite (split_noslash n).
  - simpl. now rewrite (cleanStep_plain _ _ _ Hn).
  - unfold plain in Hn. now repeat (apply andb_true_iff in Hn as [Hn ?]).
Qed.

(** *** [path.Clean] keeps the location *)

Lemma wfStack_cons root c below :
  wfStack root (c :: below)
  = noslash c && negb (c =? "") && negb (c =? ".")
    && (if c =? ".." then negb root && allDotDot below else true)
    && wfStack root below.
Proof. reflexivity. Qed.

Lemma allDotDot_cons c below :
  allDotDot (c :: below) = (c =? "..") && allDotDot below.
Proof. reflexivity. Qed.

Lemma cleanStep_wf root st c :
  noslash c = true -> wfStack root st = true ->
  wfStack root (path.cleanStep root st c) = true.
Proof.
  intros Hc Hst. unfold path.cleanStep.
  destruct (c =? "") eqn:E1; [exact Hst|].
  destruct (c =? ".") eqn:E2; [exact Hst|]. cbn [orb].
  destruct (c =? "..") eqn:E3.
  - destruct st as [|top below]; [now destruct root|].
    destruct (top =? "..") eqn:E4.
    + rewrite wfStack_cons in Hst. rewrite E4 in Hst.
      rewrite 2 wfStack_cons, allDotDot_cons, E4.
      repeat (apply andb_true_iff in Hst as [Hst ?]).
      apply andb_true_iff in H0 as [? ?].
      repeat (apply andb_true_iff; split); auto.
    + rewrite wfStack_cons in Hst. now apply andb_true_iff in Hst as [_ ?].
  - rewrite wfStack_cons. now rewrite Hc, E1, E2, E3, Hst.
Qed.

Lemma fold_cleanStep_wf root cs : forall st,
  Forall (fun c => noslash c = true) cs -> wfStack root st = true ->
  wfStack root (fold_left (path.cleanStep root) cs st) = true.
Proof.
  induction cs as [|c cs IH]; simpl; intros st Hcs Hst; [exact Hst|].
  inversion Hcs; subst. apply IH; [assumption|].
  now apply cleanStep_wf.
Qed.

Lemma cleanStep_replay root st :
  wfStack root st = true ->
  fold_left (path.cleanStep root) (rev st) [] = st.
Proof.
  induction st as [|c below IH]; intros H; [reflexivity|].
  rewrite wfStack_cons in H.
  repeat (apply andb_true_iff in H as [H ?]).
  cbn [rev]. rewrite fold_left_app, IH by assumption. cbn [fold_left].
  unfold path.cleanStep.
  destruct (c =? ""); [discriminate|].
  destruct (c =? ".") eqn:E2; [discriminate|]. cbn [orb].
  destruct (c =? "..") eqn:E3; [|reflexivity].
  apply String.eqb_eq in E3; subst c.
  apply andb_true_iff in H1 as [Hr Hb].
  destruct below as [|top below]; [now destruct root|].
  rewrite allDotDot_cons in Hb. apply andb_true_iff in Hb as [Ht _].
  now rewrite Ht.
Qed.

Lemma wfStack_elements root st :
  wfStack root st = true ->
  Forall (fun c => noslash c = true /\ c <> "") st.
Proof.
  induction st as [|c below IH]; intros H; constructor;
    rewrite wfStack_cons in H.
  - repeat (apply andb_true_iff in H as [H ?]).
    split; [assumption|]. intros ->. discriminate.
  - apply IH. now apply andb_true_iff in H as [_ ?].
Qed.

Lemma split_join cs :
  cs <> [] -> Forall (fun c => noslash c = true /\ c <> "") cs ->
  path.split (path.join cs) = cs.
Proof.
  induction cs as [|c cs IH]; [congruence|]. intros _ H.
  inversion H as [|? ? [Hc _] Hcs]; subst.
  destruct cs as [|c' cs]; [now apply split_noslash|].
  change (path.join (c :: c' :: cs))
    with (c ++ "/" ++ path.join (c' :: cs))%string.
  rewrite split_app_slash, (split_noslash c Hc), IH by (congruence || auto).
  reflexivity.
Qed.

Lemma rooted_join c cs :
  noslash c = true -> c <> "" -> path.rooted (path.join (c :: cs)) = false.
Proof.
  intros Hc Hne.
  assert (Hr : path.rooted c = false).
  { destruct c as [|a c]; [congruence|]. simpl in *.
    now destruct (Ascii.eqb a "/"). }
  destruct cs as [|c' cs]; [exact Hr|].
  change (path.join (c :: c' :: cs))
    with (c ++ "/" ++ path.join (c' :: cs))%string.
  now rewrite rooted_app.
Qed.

Lemma resolve_wf s :
  wfStack (path.rooted s)
          (fold_left (path.cleanStep (path.rooted s)) (path.split s) [])
  = true.
Proof. apply fold_cleanStep_wf; [apply split_elements_noslash|reflexivity]. Qed.

Lemma resolve_render root st :
  wfStack root st = true ->
  path.resolve (path.render (root, rev st)) = (root, rev st).
Proof.
  intros Hwf.
  pose proof (wfStack_elements _ _ Hwf) as Hel.
  apply Forall_rev in Hel.
  pose proof (cleanStep_replay _ _ Hwf) as Hre.
  destruct (rev st) as [|c cs] eqn:Ers.
  - destruct root; reflexivity.
  - assert (Hsp : path.split (path.join (c :: cs)) = c :: cs)
      by (apply split_join; [discriminate|assumption]).
    destruct root.
    + unfold path.render, path.resolve.
      change ("/" ++ path.join (c :: cs))%string
        with (String "/" (path.join (c :: cs))).
      change (path.rooted (String "/" (path.join (c :: cs)))) with true.
      change (path.split (String "/" (path.join (c :: cs))))
        with ("" :: path.split (path.join (c :: cs))).
      rewrite Hsp.
      change (fold_left (path.cleanStep true) ("" :: c :: cs) [])
        with (fold_left (path.cleanStep true) (c :: cs) []).
      now rewrite Hre, Ers.
    + pose proof (Forall_inv Hel) as [Hc Hne].
      unfold path.render, path.resolve.
      now rewrite (rooted_join c cs Hc Hne), Hsp, Hre, Ers.
Qed.

Lemma resolve_Clean s : path.resolve (path.Clean s) = path.resolve s.
Proof.
  unfold path.Clean. destruct (s =? "") eqn:E.
  - apply String.eqb_eq in E. now subst.
  - unfold path.resolve at 1 2. apply resolve_render, resolve_wf.
Qed.

Lemma resolve_Join p n :
  p <> "" -> plain n = true ->
  path.resolve (path.Join p n)
  = (fst (path.resolve p), snd (path.resolve p) ++ [n]).
Proof.
  intros Hp Hn. unfold path.Join.
  destruct (p =? "") eqn:E1; [apply String.eqb_eq in E1; congruence|].
  destruct (n =? "") eqn:E2.
  - apply String.eqb_eq in E2. now subst.
  - rewrite resolve_Clean. now apply resolve_child.
Qed.

(** *** The backup name [pgData ++ ".old"] *)

Lemma string_length_app (a b : string) :
  String.length (a ++ b) = String.length a + String.length b.
Proof. induction a; simpl; congruence. Qed.

Lemma noslash_app a b :
  noslash a = true -> noslash b = true -> noslash (a ++ b) = true.
Proof.
  induction a as [|c a IH]; simpl; intros Ha Hb; [exact Hb|].
  apply andb_true_iff in Ha as [-> Ha]. now apply IH.
Qed.

Lemma old_neq l s :
  String.length s <= 3 -> ((l ++ ".old")%string =? s) = false.
Proof.
  intros Hs. apply String.eqb_neq. intros E.
  apply (f_equal String.length) in E. rewrite string_length_app in E.
  simpl in E. lia.
Qed.

Lemma old_neq_self l : ((l ++ ".old")%string =? l) = false.
Proof.
  apply String.eqb_neq. intros E.
  apply (f_equal String.length) in E. rewrite string_length_app in E.
  simpl in E. lia.
Qed.

Lemma plain_old l : noslash l = true -> plain (l ++ ".old") = true.
Proof.
  intros Hl. unfold plain.
  rewrite noslash_app, !old_neq by (simpl; auto; lia). reflexivity.
Qed.

Lemma prefixb_refl d : path.prefixb d d = true.
Proof. induction d; simpl; [|rewrite String.eqb_refl]; auto. Qed.

Lemma prefixb_length d : forall k,
  path.prefixb d k = true -> length d <= length k.
Proof.
  induction d as [|x d IH]; intros [|y k]; simpl; intros H;
    try lia; try discriminate.
  apply andb_true_iff in H as [_ H]. apply IH in H. lia.
Qed.

Lemma prefixb_app_last a x y :
  path.prefixb (a ++ [x]) (a ++ [y]) = (x =? y).
Proof.
  induction a as [|c a IH]; simpl.
  - now rewrite andb_true_r.
  - now rewrite String.eqb_refl, IH.
Qed.

Lemma prefixb_app d rest : path.prefixb d (d ++ rest) = true.
Proof. induction d; simpl; [|rewrite String.eqb_refl]; auto. Qed.

Lemma key_eqb_eq a b : path.key_eqb a b = true <-> a = b.
Proof.
  unfold path.key_eqb. destruct a as [ra ca], b as [rb cb]. simpl.
  destruct (list_eq_dec string_dec ca cb) as [->|Hn].
  - rewrite andb_true_r, Bool.eqb_true_iff. split; congruence.
  - rewrite andb_false_r. split; [discriminate|congruence].
Qed.

Lemma key_eqb_refl a : path.key_eqb a a = true.
Proof. now apply key_eqb_eq. Qed.

Lemma under_refl d : path.under d d = true.
Proof. unfold path.under. now rewrite Bool.eqb_reflx, prefixb_refl. Qed.

Lemma under_length d k :
  path.under d k = true -> length (snd d) <= length (snd k).
Proof.
  unfold path.under. intros H. apply andb_true_iff in H as [_ H].
  now apply prefixb_length.
Qed.

(** The location of [p ++ ".old"]: the last element of [p] with
    [.old] appended is never cleaned away. *)
Lemma resolve_old p :
  p <> "" ->
  exists below l,
    path.resolve p
    = (path.rooted p, rev (path.cleanStep (path.rooted p) below l))
    /\ path.resolve (p ++ ".old")
       = (path.rooted p, rev below ++ [(l ++ ".old")%string]).
Proof.
  intros Hp.
  destruct (split_app_noslash p ".old" eq_refl) as (init & l & E1 & E2).
  exists (fold_left (path.cleanStep (path.rooted p)) init []), l.
  unfold path.resolve. rewrite (rooted_app p _ Hp), E1, E2.
  rewrite !fold_left_app. cbn [fold_left]. split; [reflexivity|].
  rewrite cleanStep_plain; [reflexivity|].
  apply plain_old.
  pose proof (split_elements_noslash p) as H. rewrite E1 in H.
  apply Forall_app in H as [_ H]. now inversion H.
Qed.

(** The data directory does not lie at or below its backup name. *)
Lemma not_under_old p :
  p <> "" -> path.under (path.resolve (p ++ ".old")) (path.resolve p) = false.
Proof.
  intros Hp. destruct (resolve_old p Hp) as (below & l & -> & ->).
  unfold path.under. cbn [fst snd]. rewrite Bool.eqb_reflx. cbn [andb].
  apply not_true_is_false. intros H.
  pose proof (prefixb_length _ _ H) as Hlen.
  rewrite List.length_app, !length_rev in Hlen. cbn [length] in Hlen.
  revert H Hlen. unfold path.cleanStep.
  destruct ((l =? "") || (l =? ".")).
  { intros _. lia. }
  destruct (l =? "..") eqn:E.
  - apply String.eqb_eq in E. subst l.
    destruct below as [|top below'].
    + destruct (path.rooted p); simpl; discriminate.
    + destruct (top =? "..").
      * change (rev (".." :: top :: below'))
          with (rev (top :: below') ++ [".."]).
        rewrite prefixb_app_last. discriminate.
      * intros _. cbn [length]. lia.
  - cbn [rev]. rewrite prefixb_app_last, old_neq_self. discriminate.
Qed.

Lemma old_neq_key p :
  p <> "" -> path.key_eqb (path.resolve p) (path.resolve (p ++ ".old")) = false.
Proof.
  intros Hp. apply not_true_is_false. intros H.
  apply key_eqb_eq in H. pose proof (not_under_old p Hp) as Hu.
  rewrite <- H, under_refl in Hu. discriminate.
Qed.

(** *** The dump file and the backup name *)

Lemma prefixb_app_cons a x y rest :
  path.prefixb (a ++ [x]) (a ++ y :: rest) = (x =? y).
Proof.
  induction a as [|c a IH]; simpl.
  - now rewrite andb_true_r.
  - now rewrite String.eqb_refl, IH.
Qed.

Lemma dump_not_old l : ((l ++ ".old")%string =? "downgrade_dump.sql") = false.
Proof.
  apply String.eqb_neq. intros E.
  do 18 (destruct l as [|? l]; [discriminate E|];
         cbn [append] in E; injection E as _ E).
  destruct l; discriminate E.
Qed.

(** What lies directly below the data directory does not lie at or
    below the backup name. *)
Lemma child_not_under_old p n :
  p <> "" ->
  (forall l, ((l ++ ".old")%string =? n) = false) ->
  path.under (path.resolve (p ++ ".old"))
             (fst (path.resolve p), snd (path.resolve p) ++ [n])
  = false.
Proof.
  intros Hp Hn. destruct (resolve_old p Hp) as (below & l & -> & ->).
  unfold path.under. cbn [fst snd]. rewrite Bool.eqb_reflx. cbn [andb].
  apply not_true_is_false. intros H.
  pose proof (prefixb_length _ _ H) as Hlen.
  rewrite !List.length_app, !length_rev in Hlen. cbn [length] in Hlen.
  revert H Hlen. unfold path.cleanStep.
  destruct ((l =? "") || (l =? ".")).
  { rewrite prefixb_app_last, Hn. discriminate. }
  destruct (l =? "..") eqn:E.
  - apply String.eqb_eq in E. subst l.
    destruct below as [|top below'].
    + destruct (path.rooted p); cbn [rev app path.prefixb].
      * rewrite Hn. discriminate.
      * rewrite (old_neq ".." "..") by (simpl; lia). discriminate.
    + destruct (top =? "..").
      * change (rev (".." :: top :: below'))
          with (rev (top :: below') ++ [".."]).
        rewrite <- app_assoc. cbn [app].
        rewrite prefixb_app_cons, (old_neq ".." "..") by (simpl; lia).
        discriminate.
      * intros _. cbn [length]. lia.
  - cbn [rev]. rewrite <- app_assoc. cbn [app].
    rewrite prefixb_app_cons, old_neq_self. discriminate.
Qed.

Lemma under_child k n : path.under k (fst k, snd k ++ [n]) = true.
Proof.
  unfold path.under. cbn [fst snd].
  now rewrite Bool.eqb_reflx, prefixb_app.
Qed.

Lemma rebase_child src dst n :
  path.rebase dst src (fst dst, snd dst ++ [n]) = (fst src, snd src ++ [n]).
Proof.
  unfold path.rebase. cbn [fst snd].
  rewrite skipn_app, skipn_all, Nat.sub_diag. reflexivity.
Qed.

End PathFacts.

(* ================================================================= *)
(** * The executor *)

Module Executor.

Import path downgrade samples PathFacts.

(** ** Runs of the executor, case by case *)

Ltac run_unfold H :=
  unfold run, start in H;
  cbv beta iota zeta delta
    [executeDowngrade bind ret perform fileutils_EnsureDirectoryExists
     os_Remove os_Rename os_RemoveAll execlog_RunStreaming exec_Run
     unlessNotExist machine events app] in H.

Ltac run_destruct env op m :=
  let E := fresh "E" in
  let e := fresh "e" in
  destruct (outcome env op m) as [e|] eqn:E.

Ltac run_step H :=
  cbv beta iota zeta delta [machine events app] in H;
  lazymatch type of H with
  | (match outcome ?env ?op ?m with _ => _ end) _ = _ =>
      run_destruct env op m
  | (match (match outcome ?env ?op ?m with _ => _ end) with _ => _ end) _
    = _ =>
      run_destruct env op m
  | (match (if os_IsNotExist ?e then _ else _) with _ => _ end) _ = _ =>
      let E := fresh "Enx" in
      destruct (os_IsNotExist e) eqn:E
  | (_, mkWorld (match outcome ?env ?op ?m with _ => _ end) _) = _ =>
      run_destruct env op m
  end.

Ltac run_cases H :=
  run_unfold H; repeat run_step H;
  cbv beta iota zeta delta [machine events app] in H.

(** The leaves of a run: [run_leaves] replaces a run by each way it
    can end. *)
Ltac run_leaves env pgData m :=
  let r := fresh "r" in
  let w := fresh "w" in
  let H := fresh "Hrun" in
  destruct (run env pgData m) as [r w] eqn:H;
  unfold run, start, executeDowngrade in H;
  let Hp := fresh "Hset" in
  destruct (pgData =? "") eqn:Hp;
  [ apply pair_equal_spec in H; destruct H as [<- <-]
  | fold (start m) in H; run_cases H;
    apply pair_equal_spec in H; destruct H as [<- <-] ].

Lemma ends_with {A} (l rest : list A) x y :
  rev l = y :: x :: rest -> l = rev rest ++ [x; y].
Proof.
  intros H. rewrite <- (rev_involutive l), H. cbn [rev].
  now rewrite <- app_assoc.
Qed.

Lemma ends_with1 {A} (l rest : list A) x :
  rev l = x :: rest -> l = rev rest ++ [x].
Proof. intros H. now rewrite <- (rev_involutive l), H. Qed.

Ltac pick_event Hin :=
  cbv beta iota zeta delta [In snd fst events] in Hin;
  repeat (destruct Hin as [<-|Hin]; [|try contradiction]);
  try contradiction.

(** ** What the operations of the executor do *)

Lemma fs_start pgData name m :
  effect (OpRunStreaming (startCmd pgData) name) m
  = mkMachine (fs m) (Some (path.resolve pgData)).
Proof. reflexivity. Qed.

Lemma fs_stop pgData name m :
  effect (OpRunStreaming (stopCmd pgData) name) m = mkMachine (fs m) None.
Proof. reflexivity. Qed.

Lemma fs_cleanupStop pgData m :
  effect (OpRun (cleanupStopCmd pgData)) m = mkMachine (fs m) None.
Proof. reflexivity. Qed.

Lemma fs_dump pgData name m :
  effect (OpRunStreaming (dumpCmd pgData) name) m
  = mkMachine (fs_set (path.resolve (dumpFile pgData))
                      (File (DumpAll (postmaster m))) (fs m))
              (postmaster m).
Proof. reflexivity. Qed.

Lemma fs_initdb pgData name m :
  effect (OpRunStreaming (initCmd pgData) name) m
  = mkMachine (fs_set (path.resolve pgData) (Dir PgFresh) (fs m))
              (postmaster m).
Proof. reflexivity. Qed.

(** Handed the path of no file, [psql] replays nothing. *)
Lemma fs_restore_missing pgData name m :
  lookup (dumpFile pgData) m = None ->
  effect (OpRunStreaming (restoreCmd pgData) name) m = m.
Proof.
  intros H. change (effect (OpRunStreaming (restoreCmd pgData) name) m)
    with (match postmaster m with
          | Some k =>
              match lookup (dumpFile pgData) m with
              | Some (File c) =>
                  mkMachine (fs_set k (Dir (PgRestored c)) (fs m))
                            (postmaster m)
              | _ => m
              end
          | None => m
          end).
  rewrite H. now destruct (postmaster m).
Qed.

Lemma fs_sanitize pgData name m c :
  lookup (dumpFile pgData) m = Some (File c) ->
  effect (OpRunStreaming (sanitizeCmd pgData) name) m
  = mkMachine (fs_set (path.resolve (dumpFile pgData))
                      (File (SedInPlace (Args (sanitizeCmd pgData)) c))
                      (fs m))
              (postmaster m).
Proof.
  intros H.
  change (effect (OpRunStreaming (sanitizeCmd pgData) name) m)
    with (match lookup (dumpFile pgData) m with
          | Some (File c) =>
              mkMachine (fs_set (path.resolve (dumpFile pgData))
                           (File (SedInPlace (Args (sanitizeCmd pgData)) c))
                           (fs m))
                        (postmaster m)
          | _ => m
          end).
  now rewrite H.
Qed.

Lemma fs_set_same k n f : fs_set k n f k = Some n.
Proof. unfold fs_set. now rewrite key_eqb_refl. Qed.

Lemma fs_set_other k n f q :
  path.key_eqb k q = false -> fs_set k n f q = f q.
Proof. unfold fs_set. now intros ->. Qed.

Lemma rebase_self src dst : path.rebase dst src dst = src.
Proof.
  unfold path.rebase. rewrite skipn_all, app_nil_r. now destruct src.
Qed.

(** After a rename the directory is found under its new name. *)
Lemma fs_move_dst src dst f : fs_move src dst f dst = f src.
Proof. unfold fs_move. now rewrite under_refl, rebase_self. Qed.

Lemma fs_move_src src dst f :
  path.under dst src = false -> fs_move src dst f src = None.
Proof. unfold fs_move. intros ->. now rewrite under_refl. Qed.

Lemma refusal_rename_exists env oldpath newpath m :
  outcome env (OpRename oldpath newpath) m = None ->
  lookup oldpath m <> None.
Proof.
  unfold outcome, refusal. now destruct (lookup oldpath m).
Qed.

Lemma lookup_mk p f pm : lookup p (mkMachine f pm) = f (path.resolve p).
Proof. reflexivity. Qed.

Lemma effect_rename oldpath newpath m :
  effect (OpRename oldpath newpath) m
  = mkMachine (fs_move (path.resolve oldpath) (path.resolve newpath) (fs m))
              (postmaster m).
Proof. reflexivity. Qed.

Lemma effect_removeAll p m :
  effect (OpRemoveAll p) m
  = mkMachine (fs_delTree (path.resolve p) (fs m)) (postmaster m).
Proof. reflexivity. Qed.

(** ** Failures *)

(** C6: when the export or the restore fails, the executor issues one
    more command and nothing after it: [pg_ctl -D pgData stop], the
    stop of the instance on the data directory, which is running then.
    If that stop succeeds no instance is left running, and if it fails
    the machine is left as it was; either way what the executor returns
    is the failure of the export or of the restore, wrapped under its
    own message. *)
Theorem cleanup_stop_never_masks env pgData m ev e :
  In ev (events (snd (run env pgData m))) ->
  ev_op ev = OpRunStreaming (dumpCmd pgData) "pg_dumpall"
  \/ ev_op ev = OpRunStreaming (restoreCmd pgData) "psql" ->
  ev_result ev = Some e ->
  exists before stop,
    events (snd (run env pgData m)) = before ++ [ev; stop]
    /\ ev_op stop = OpRun (cleanupStopCmd pgData)
    /\ ev_op stop = OpRun (Command "pg_ctl" ["-D"; pgData; "stop"])
    /\ postmaster (ev_seen stop) = Some (path.resolve pgData)
    /\ (ev_result stop = None ->
        postmaster (machine (snd (run env pgData m))) = None)
    /\ (ev_result stop <> None ->
        machine (snd (run env pgData m)) = ev_seen stop)
    /\ (ev_op ev = OpRunStreaming (dumpCmd pgData) "pg_dumpall" ->
        fst (run env pgData m) = Some (Wrapf "pg_dumpall failed" e))
    /\ (ev_op ev = OpRunStreaming (restoreCmd pgData) "psql" ->
        fst (run env pgData m) = Some (Wrapf "restore failed" e))
    /\ (forall e', fst (run env pgData m) = Some e' -> Unwrap e' = Some e).
Proof.
  intros Hin Hop He.
  run_leaves env pgData m; pick_event Hin;
    cbv beta iota delta [ev_op ev_result] in Hop, He;
    try (destruct Hop; discriminate); try discriminate.
  all: injection He as <-.
  all: cbv beta iota delta [fst snd events machine].
  all: eexists _, _; split;
    [apply ends_with; cbv beta iota delta [rev app]; reflexivity|].
  all: cbv beta iota delta [ev_op ev_result ev_seen].
  all: split; [reflexivity|]; split; [reflexivity|];
    split; [reflexivity|];
    split; [first [discriminate | intros _; reflexivity]|];
    split; [first [reflexivity | intros Hx; now destruct Hx]|];
    split; [first [reflexivity | discriminate]|];
    split; [first [reflexivity | discriminate]|];
    intros e' [= <-]; reflexivity.
Qed.

(** C5: when the rename of the data directory to its backup name
    fails, the executor returns that failure wrapped under
    [failed to rename PGDATA], the rename is the last operation it
    performs, and the machine is left as the rename found it. *)
Theorem rename_failure_aborts env pgData m ev e :
  In ev (events (snd (run env pgData m))) ->
  ev_op ev = OpRename pgData (pgData ++ ".old") ->
  ev_result ev = Some e ->
  fst (run env pgData m) = Some (Wrapf "failed to rename PGDATA" e)
  /\ (exists before, events (snd (run env pgData m)) = before ++ [ev])
  /\ machine (snd (run env pgData m)) = ev_seen ev
  /\ (forall p, lookup p (machine (snd (run env pgData m)))
                = lookup p (ev_seen ev)).
Proof.
  intros Hin Hop He.
  run_leaves env pgData m; pick_event Hin;
    cbv beta iota delta [ev_op ev_result] in Hop, He;
    try discriminate.
  all: injection He as <-.
  all: cbv beta iota delta [fst snd events machine ev_seen].
  all: split; [reflexivity|split; [|split; [reflexivity|reflexivity]]].
  all: eexists; apply ends_with1; cbv beta iota delta [rev app];
    reflexivity.
Qed.

Lemma lookup_cleanupStop p pgData m :
  lookup p (effect (OpRun (cleanupStopCmd pgData)) m) = lookup p m.
Proof. reflexivity. Qed.

Lemma lookup_start p pgData name m :
  lookup p (effect (OpRunStreaming (startCmd pgData) name) m) = lookup p m.
Proof. reflexivity. Qed.

Lemma lookup_stop p pgData name m :
  lookup p (effect (OpRunStreaming (stopCmd pgData) name) m) = lookup p m.
Proof. reflexivity. Qed.

(** Once the data directory is renamed and a new one is made at its
    place, the old one is found under the backup name. *)
Lemma backup_after_initdb pgData name m :
  pgData <> "" ->
  lookup (pgData ++ ".old")
         (effect (OpRunStreaming (initCmd pgData) name)
            (effect (OpRename pgData (pgData ++ ".old")) m))
  = lookup pgData m.
Proof.
  intros Hp. rewrite fs_initdb, effect_rename, lookup_mk.
  cbv beta iota delta [fs postmaster].
  rewrite fs_set_other by now apply old_neq_key.
  now rewrite fs_move_dst.
Qed.

(** C7: when the restore fails, the executor returns that failure
    wrapped under [restore failed], the directory under the backup name
    is still there at the end, and no removal of it is among the
    operations performed. *)
Theorem restore_failure_keeps_backup env pgData m ev e :
  In ev (events (snd (run env pgData m))) ->
  ev_op ev = OpRunStreaming (restoreCmd pgData) "psql" ->
  ev_result ev = Some e ->
  fst (run env pgData m) = Some (Wrapf "restore failed" e)
  /\ (forall e', fst (run env pgData m) = Some e' ->
                 Error e' = ("restore failed: " ++ Error e)%string
                 /\ Unwrap e' = Some e)
  /\ lookup (pgData ++ ".old") (machine (snd (run env pgData m))) <> None
  /\ (forall ev', In ev' (events (snd (run env pgData m))) ->
                  ev_op ev' <> OpRemoveAll (pgData ++ ".old")).
Proof.
  intros Hin Hop He.
  run_leaves env pgData m; pick_event Hin;
    cbv beta iota delta [ev_op ev_result] in Hop, He;
    try discriminate.
  all: injection He as <-.
  all: apply String.eqb_neq in Hset.
  all: cbv beta iota delta [fst snd events machine].
  all: split; [reflexivity|split; [|split]].
  all: try (intros e' [= <-]; split; reflexivity).
  all: try (intros ev' Hin'; pick_event Hin';
            cbv beta iota delta [ev_op]; discriminate).
  all: rewrite ?lookup_cleanupStop, lookup_start, backup_after_initdb
    by assumption.
  all: eapply refusal_rename_exists; eassumption.
Qed.

(** ** The run in which every operation succeeds *)

Lemma dirState_existing p m :
  lookup p m = Some (Dir PgExisting) ->
  dirState p m
  = if isFile (lookup (dumpFile p) m) && stopped m
    then Some Dumped else Some Original.
Proof. unfold dirState. now intros ->. Qed.

Lemma Original_inv p m :
  dirState p m = Some Original ->
  lookup p m = Some (Dir PgExisting)
  /\ isFile (lookup (dumpFile p) m) && stopped m = false.
Proof.
  unfold dirState.
  destruct (lookup p m) as [[c|[]]|];
    destruct (lookup (p ++ ".old") m) as [[c'|[]]|];
    try discriminate;
    try (destruct (exportOf _ _); discriminate);
    destruct (isFile (lookup (dumpFile p) m) && stopped m);
    try discriminate; auto.
Qed.

Lemma plain_dump : plain "downgrade_dump.sql" = true.
Proof. reflexivity. Qed.

Lemma plain_custom : plain "custom.conf" = true.
Proof. reflexivity. Qed.

Lemma child_neq_key p n :
  p <> "" -> plain n = true ->
  path.key_eqb (path.resolve (path.Join p n)) (path.resolve p) = false.
Proof.
  intros Hp Hn. apply not_true_is_false. intros H.
  apply key_eqb_eq in H. rewrite (resolve_Join p n Hp Hn) in H.
  apply (f_equal (fun k => length (snd k))) in H.
  cbn [snd] in H. rewrite List.length_app in H. cbn [length] in H. lia.
Qed.

Lemma Original_intro p m :
  lookup p m = Some (Dir PgExisting) ->
  isFile (lookup (dumpFile p) m) && stopped m = false ->
  dirState p m = Some Original.
Proof. intros Hd Hf. now rewrite dirState_existing, Hf. Qed.

(** Making the socket directory leaves the data directory in its
    original state. *)
Lemma ensure_keeps_Original p dir m :
  dirState p m = Some Original ->
  dirState p (effect (OpEnsureDirectoryExists dir) m) = Some Original.
Proof.
  intros H. destruct (Original_inv _ _ H) as [Hd Hf].
  cbv beta iota delta [effect].
  destruct (lookup dir m) eqn:Hdir; [exact H|].
  apply Original_intro; unfold lookup, stopped in *; cbn [fs postmaster];
    unfold fs_set.
  - destruct (path.key_eqb (path.resolve dir) (path.resolve p)) eqn:E;
      [|exact Hd].
    apply key_eqb_eq in E. congruence.
  - destruct (path.key_eqb (path.resolve dir) (path.resolve (dumpFile p)));
      [reflexivity|exact Hf].
Qed.

(** So does the removal of [custom.conf]. *)
Lemma remove_keeps_Original p m :
  p <> "" ->
  dirState p m = Some Original ->
  dirState p (effect (OpRemove (path.Join p "custom.conf")) m)
  = Some Original.
Proof.
  intros Hp H. destruct (Original_inv _ _ H) as [Hd Hf].
  cbv beta iota delta [effect].
  apply Original_intro; unfold lookup, stopped in *; cbn [fs postmaster];
    unfold fs_del.
  - now rewrite child_neq_key.
  - destruct (path.key_eqb (path.resolve (path.Join p "custom.conf"))
                           (path.resolve (dumpFile p)));
      [reflexivity|exact Hf].
Qed.

(** So does the edit of [postgresql.conf]. *)
Lemma strip_keeps_Original p name m :
  dirState p m = Some Original ->
  dirState p (effect (OpRunStreaming (stripCmd p) name) m) = Some Original.
Proof.
  intros H. destruct (Original_inv _ _ H) as [Hd Hf].
  change (effect (OpRunStreaming (stripCmd p) name) m)
    with (match lookup (path.Join p "postgresql.conf") m with
          | Some (File c) =>
              mkMachine (fs_set (path.resolve (path.Join p "postgresql.conf"))
                           (File (SedInPlace (Args (stripCmd p)) c))
                           (fs m))
                        (postmaster m)
          | _ => m
          end).
  destruct (lookup (path.Join p "postgresql.conf") m) as [[c|d]|] eqn:Hc;
    try exact H.
  apply Original_intro; unfold lookup, stopped in *; cbn [fs postmaster];
    unfold fs_set.
  - destruct (path.key_eqb (path.resolve (path.Join p "postgresql.conf"))
                           (path.resolve p)) eqn:E; [|exact Hd].
    apply key_eqb_eq in E. congruence.
  - destruct (path.key_eqb (path.resolve (path.Join p "postgresql.conf"))
                           (path.resolve (dumpFile p))) eqn:E; [|exact Hf].
    apply key_eqb_eq in E. rewrite <- E, Hc in Hf. exact Hf.
Qed.

Lemma fs_delTree_root d f : fs_delTree d f d = None.
Proof. unfold fs_delTree. now rewrite under_refl. Qed.

Lemma fs_delTree_outside d f q :
  path.under d q = false -> fs_delTree d f q = f q.
Proof. unfold fs_delTree. now intros ->. Qed.

Lemma old_nonempty p : (p ++ ".old")%string <> "".
Proof. destruct p; discriminate. Qed.

Section Chain.

Variable p : string.
Variables m3 m4 m5 m6 m7 m8 m9 m10 m11 m12 m13 : Machine.
Hypothesis Hp : p <> "".
Hypothesis H3 : dirState p m3 = Some Original.
Hypothesis D4 : m4 = effect (OpRunStreaming (startCmd p) "pg_ctl") m3.
Hypothesis D5 : m5 = effect (OpRunStreaming (dumpCmd p) "pg_dumpall") m4.
Hypothesis D6 : m6 = effect (OpRunStreaming (stopCmd p) "pg_ctl") m5.
Hypothesis D7 : m7 = effect (OpRunStreaming (sanitizeCmd p) "sed") m6.
Hypothesis D8 : m8 = effect (OpRename p (p ++ ".old")) m7.
Hypothesis D9 : m9 = effect (OpRunStreaming (initCmd p) "initdb") m8.
Hypothesis D10 : m10 = effect (OpRunStreaming (startCmd p) "pg_ctl") m9.
Hypothesis D11 : m11 = effect (OpRunStreaming (restoreCmd p) "psql") m10.
Hypothesis D12 : m12 = effect (OpRunStreaming (stopCmd p) "pg_ctl") m11.
Hypothesis D13 : m13 = effect (OpRemoveAll (p ++ ".old")) m12.

Local Abbreviation kD := (path.resolve p).
Local Abbreviation kO := (path.resolve (p ++ ".old")).
Local Abbreviation kF := (path.resolve (dumpFile p)).
Local Abbreviation dump := (File (DumpAll (Some kD))).
Local Abbreviation sanitized :=
  (File (SedInPlace (Args (sanitizeCmd p)) (DumpAll (Some kD)))).
Local Abbreviation f5 := (fs_set kF dump (fs m3)).
Local Abbreviation f7 := (fs_set kF sanitized f5).
Local Abbreviation f8 := (fs_move kD kO f7).
Local Abbreviation f9 := (fs_set kD (Dir PgFresh) f8).

Local Lemma chain_m4 : m4 = mkMachine (fs m3) (Some kD).
Proof. now rewrite D4. Qed.

Local Lemma chain_m5 : m5 = mkMachine f5 (Some kD).
Proof. now rewrite D5, chain_m4. Qed.

Local Lemma chain_m6 : m6 = mkMachine f5 None.
Proof. now rewrite D6, chain_m5. Qed.

Local Lemma chain_m7 : m7 = mkMachine f7 None.
Proof. rewrite D7, chain_m6. apply fs_sanitize, fs_set_same. Qed.

Local Lemma chain_m8 : m8 = mkMachine f8 None.
Proof. now rewrite D8, chain_m7. Qed.

Local Lemma chain_m9 : m9 = mkMachine f9 None.
Proof. now rewrite D9, chain_m8. Qed.

Local Lemma chain_m10 : m10 = mkMachine f9 (Some kD).
Proof. now rewrite D10, chain_m9. Qed.

Local Lemma kF_kD : path.key_eqb kF kD = false.
Proof. apply child_neq_key; [exact Hp|reflexivity]. Qed.

Local Lemma kD_kO : path.key_eqb kD kO = false.
Proof. now apply old_neq_key. Qed.

Local Lemma kO_above_kD : path.under kO kD = false.
Proof. now apply not_under_old. Qed.

Local Lemma m3_kD : fs m3 kD = Some (Dir PgExisting).
Proof. now destruct (Original_inv _ _ H3). Qed.

Local Lemma kF_child : kF = (fst kD, snd kD ++ ["downgrade_dump.sql"]).
Proof. apply resolve_Join; [exact Hp|reflexivity]. Qed.

(** When the restore starts, no file is at the path of the dump
    file ... *)
Lemma restore_sees_no_dump : lookup (dumpFile p) m10 = None.
Proof.
  rewrite chain_m10. unfold lookup. cbn [fs].
  rewrite fs_set_other.
  - unfold fs_move. rewrite kF_child.
    rewrite child_not_under_old by (exact Hp || exact dump_not_old).
    now rewrite under_child.
  - apply not_true_is_false. intros H. apply key_eqb_eq in H.
    pose proof kF_kD as Hn. rewrite <- H, key_eqb_refl in Hn.
    discriminate.
Qed.

(** ... and the dump that was written and sanitized lies in the
    directory under the backup name. *)
Lemma restore_dump_in_backup :
  lookup (path.Join (p ++ ".old") "downgrade_dump.sql") m10
  = Some sanitized.
Proof.
  pose proof (old_nonempty p) as Ho.
  rewrite chain_m10. unfold lookup. cbn [fs].
  rewrite (resolve_Join _ _ Ho plain_dump).
  rewrite fs_set_other.
  - unfold fs_move. rewrite under_child, rebase_child, <- kF_child.
    apply fs_set_same.
  - apply not_true_is_false. intros H. apply key_eqb_eq in H.
    pose proof kO_above_kD as Hn. rewrite H, under_child in Hn.
    discriminate.
Qed.

Local Lemma chain_m11 : m11 = mkMachine f9 (Some kD).
Proof.
  rewrite D11, fs_restore_missing by exact restore_sees_no_dump.
  apply chain_m10.
Qed.

Local Lemma chain_m12 : m12 = mkMachine f9 None.
Proof. now rewrite D12, chain_m11. Qed.

Local Lemma chain_m13 : m13 = mkMachine (fs_delTree kO f9) None.
Proof. now rewrite D13, chain_m12. Qed.

(** The states of the data directory along the chain: the restore
    replays nothing, so the directory that [initdb] made stays as it
    is, and with the backup gone it is in none of the six states. *)
Lemma chain_states :
  dirState p m4 = Some Original /\ dirState p m5 = Some Original
  /\ dirState p m6 = Some Dumped /\ dirState p m7 = Some Dumped
  /\ dirState p m8 = Some BackedUp
  /\ dirState p m9 = Some Reinitialized
  /\ dirState p m10 = Some Reinitialized
  /\ dirState p m11 = Some Reinitialized
  /\ dirState p m12 = Some Reinitialized
  /\ dirState p m13 = None.
Proof.
  rewrite chain_m4, chain_m5, chain_m6, chain_m7, chain_m8, chain_m9,
    chain_m10, chain_m11, chain_m12, chain_m13.
  unfold dirState, lookup, stopped. cbn [fs postmaster].
  repeat first
    [ rewrite fs_set_same
    | rewrite fs_delTree_root
    | rewrite fs_move_dst
    | rewrite (fs_set_other kF _ _ kD) by apply kF_kD
    | rewrite (fs_set_other kD _ _ kO) by apply kD_kO
    | rewrite (fs_move_src kD kO) by apply kO_above_kD
    | rewrite (fs_delTree_outside kO _ kD) by apply kO_above_kD
    | rewrite m3_kD
    | rewrite andb_false_r ].
  repeat split.
Qed.

(** What is left at the end of the chain: the directory that [initdb]
    made, and neither the backup nor the dump. *)
Lemma chain_end :
  lookup p m13 = Some (Dir PgFresh)
  /\ lookup (p ++ ".old") m13 = None
  /\ lookup (path.Join (p ++ ".old") "downgrade_dump.sql") m13 = None
  /\ lookup (dumpFile p) m13 = None.
Proof.
  pose proof (old_nonempty p) as Ho.
  rewrite chain_m13. unfold lookup. cbn [fs].
  split; [|split; [|split]].
  - rewrite (fs_delTree_outside kO _ kD) by apply kO_above_kD.
    apply fs_set_same.
  - apply fs_delTree_root.
  - rewrite (resolve_Join _ _ Ho plain_dump). unfold fs_delTree.
    now rewrite under_child.
  - rewrite fs_delTree_outside.
    + pose proof restore_sees_no_dump as H. rewrite chain_m10 in H.
      exact H.
    + rewrite kF_child.
      apply child_not_under_old; [exact Hp|exact dump_not_old].
Qed.

End Chain.

(** Whenever the executor gets as far as the restore, no file is at
    the path it hands to [psql]: the dump that the export wrote and the
    sanitize step rewrote went with the data directory to the backup
    name. *)
Lemma restore_is_handed_a_missing_file env pgData m ev :
  In ev (events (snd (run env pgData m))) ->
  ev_op ev = OpRunStreaming (restoreCmd pgData) "psql" ->
  lookup (dumpFile pgData) (ev_seen ev) = None
  /\ lookup (path.Join (pgData ++ ".old") "downgrade_dump.sql") (ev_seen ev)
     = Some (File (SedInPlace (Args (sanitizeCmd pgData))
                              (DumpAll (Some (path.resolve pgData))))).
Proof.
  intros Hin Hop.
  run_leaves env pgData m; pick_event Hin;
    cbv beta iota delta [ev_op] in Hop; try discriminate.
  all: apply String.eqb_neq in Hset.
  all: cbv beta iota delta [ev_seen].
  all: split;
    [ apply (restore_sees_no_dump pgData _ _ _ _ _ _ _ _ Hset
               eq_refl eq_refl eq_refl eq_refl eq_refl eq_refl eq_refl)
    | apply (restore_dump_in_backup pgData _ _ _ _ _ _ _ _ Hset
               eq_refl eq_refl eq_refl eq_refl eq_refl eq_refl eq_refl) ].
Qed.

(** C2 does not hold of the code: the dump is never replayed.  From a
    data directory in its original state and with a data directory
    parameter that is not empty: with a [psql] that needs its file no
    run returns without an error; in every run the restore, if it is
    reached, replays nothing; and a run in which every operation
    reports success returns no error, takes the data directory through
    Original, Dumped, Backed-Up and Reinitialized and no further, and
    leaves the directory that [initdb] made, with neither the backup
    nor the dump. *)
Theorem all_succeed_replays_nothing env pgData m :
  pgData <> "" ->
  dirState pgData m = Some Original ->
  (psqlNeedsItsFile env -> fst (run env pgData m) <> None)
  /\ (forall ev,
        In ev (events (snd (run env pgData m))) ->
        ev_op ev = OpRunStreaming (restoreCmd pgData) "psql" ->
        effect (ev_op ev) (ev_seen ev) = ev_seen ev)
  /\ (forallb succeeded (events (snd (run env pgData m))) = true ->
      fst (run env pgData m) = None
      /\ progress pgData (snd (run env pgData m))
         = [Some Original; Some Dumped; Some BackedUp; Some Reinitialized;
            None]
      /\ lookup pgData (machine (snd (run env pgData m)))
         = Some (Dir PgFresh)
      /\ lookup (pgData ++ ".old") (machine (snd (run env pgData m)))
         = None
      /\ lookup (path.Join (pgData ++ ".old") "downgrade_dump.sql")
                (machine (snd (run env pgData m)))
         = None
      /\ lookup (dumpFile pgData) (machine (snd (run env pgData m)))
         = None).
Proof.
  intros Hp H0. split; [|split].
  - intros Hneeds.
    run_leaves env pgData m; cbv beta iota delta [fst]; try discriminate.
    all: exfalso.
    all: match goal with
         | H : outcome _ (OpRunStreaming (restoreCmd _) _) ?mm = None |- _ =>
             apply (Hneeds "-f" (dumpFile pgData) ["postgres"] "psql" mm);
             [ rewrite (restore_sees_no_dump pgData _ _ _ _ _ _ _ _ Hp
                          eq_refl eq_refl eq_refl eq_refl eq_refl eq_refl
                          eq_refl);
               reflexivity
             | exact H ]
         end.
  - intros ev Hin Hop. rewrite Hop.
    apply fs_restore_missing.
    now apply (restore_is_handed_a_missing_file env pgData m ev).
  - intros Hall.
    run_leaves env pgData m;
      [apply String.eqb_eq in Hset; contradiction|..];
      cbv beta iota delta
        [forallb succeeded ev_result ev_op andb snd events] in Hall;
      try rewrite Enx in Hall; cbv beta iota in Hall; try discriminate.
    all: pose proof (ensure_keeps_Original _ (GetSocketDir env) _ H0) as H1.
    + pose proof (strip_keeps_Original _ "sed" _ H1) as H3.
      pose proof (chain_states pgData _ _ _ _ _ _ _ _ _ _ _ Hp H3
                    eq_refl eq_refl eq_refl eq_refl eq_refl eq_refl eq_refl
                    eq_refl eq_refl eq_refl)
        as (S4 & S5 & S6 & S7 & S8 & S9 & S10 & S11 & S12 & S13).
      split; [reflexivity|].
      split; [|now apply (chain_end pgData _ _ _ _ _ _ _ _ _ _ _ Hp
                            eq_refl eq_refl eq_refl eq_refl eq_refl eq_refl
                            eq_refl eq_refl eq_refl eq_refl)].
      unfold progress.
      cbv beta iota delta [map app events machine ev_seen snd].
      rewrite H0, H1, H3, S4, S5, S6, S7, S8, S9, S10, S11, S12, S13.
      reflexivity.
    + pose proof (remove_keeps_Original _ _ Hp H1) as H2.
      pose proof (strip_keeps_Original _ "sed" _ H2) as H3.
      pose proof (chain_states pgData _ _ _ _ _ _ _ _ _ _ _ Hp H3
                    eq_refl eq_refl eq_refl eq_refl eq_refl eq_refl eq_refl
                    eq_refl eq_refl eq_refl)
        as (S4 & S5 & S6 & S7 & S8 & S9 & S10 & S11 & S12 & S13).
      split; [reflexivity|].
      split; [|now apply (chain_end pgData _ _ _ _ _ _ _ _ _ _ _ Hp
                            eq_refl eq_refl eq_refl eq_refl eq_refl eq_refl
                            eq_refl eq_refl eq_refl eq_refl)].
      unfold progress.
      cbv beta iota delta [map app events machine ev_seen snd].
      rewrite H0, H1, H2, H3, S4, S5, S6, S7, S8, S9, S10, S11, S12, S13.
      reflexivity.
Qed.

(** ** The sample host *)

Lemma eventAt_In n w : n < length (events w) -> In (eventAt n w) (events w).
Proof. apply nth_In. Qed.

(** C1, on the sample host with nothing failing: the run gets as far
    as the restore; what the restore is handed,
    [/var/lib/pg/downgrade_dump.sql], is the path of no file then, and
    the dump that the export wrote and the sanitize step rewrote is at
    [/var/lib/pg.old/downgrade_dump.sql]; the run returns no error,
    and the dump is gone with the backup at the end.  With a [psql]
    that needs its file the run ends with [restore failed]. *)
Theorem restore_is_handed_the_moved_dump :
  ev_op (eventAt 10 (snd quietRun))
  = OpRunStreaming
      (Command "psql" ["-f"; "/var/lib/pg/downgrade_dump.sql"; "postgres"])
      "psql"
  /\ ev_result (eventAt 10 (snd quietRun)) = None
  /\ lookup "/var/lib/pg/downgrade_dump.sql"
            (ev_seen (eventAt 10 (snd quietRun)))
     = None
  /\ lookup "/var/lib/pg.old/downgrade_dump.sql"
            (ev_seen (eventAt 10 (snd quietRun)))
     = Some (File (SedInPlace (Args (sanitizeCmd "/var/lib/pg"))
                              (DumpAll (Some (true, ["var"; "lib"; "pg"])))))
  /\ fst quietRun = None
  /\ lookup "/var/lib/pg.old/downgrade_dump.sql" (machine (snd quietRun))
     = None
  /\ fst psqlRun = Some (Wrapf "restore failed" (ExitError "psql" 1)).
Proof. repeat split; vm_compute; reflexivity. Qed.

(** The sample [psql] that needs its file is one. *)
Lemma psqlNeedsFile_needs_its_file : psqlNeedsItsFile psqlNeedsFile.
Proof.
  intros flag file rest name m H. cbn [fault psqlNeedsFile].
  rewrite String.eqb_refl.
  unfold isFile in H. destruct (lookup file m) as [[c|d]|];
    discriminate.
Qed.

Lemma all_succeed_replays_nothing_witness :
  "/var/lib/pg" <> ""
  /\ dirState "/var/lib/pg" host = Some Original
  /\ forallb succeeded (events (snd quietRun)) = true
  /\ fst quietRun = None
  /\ progress "/var/lib/pg" (snd quietRun)
     = [Some Original; Some Dumped; Some BackedUp; Some Reinitialized;
        None]
  /\ lookup "/var/lib/pg" (machine (snd quietRun)) = Some (Dir PgFresh)
  /\ lookup "/var/lib/pg.old" (machine (snd quietRun)) = None
  /\ fst psqlRun <> None.
Proof.
  unfold quietRun, psqlRun.
  assert (H1 : "/var/lib/pg" <> "") by discriminate.
  assert (H2 : dirState "/var/lib/pg" host = Some Original)
    by (vm_compute; reflexivity).
  assert (H3 : forallb succeeded
                 (events (snd (run quiet "/var/lib/pg" host))) = true)
    by (vm_compute; reflexivity).
  split; [exact H1|]. split; [exact H2|]. split; [exact H3|].
  destruct (proj2 (proj2 (all_succeed_replays_nothing quiet "/var/lib/pg"
                            host H1 H2)) H3)
    as (R1 & R2 & R3 & R4 & _).
  split; [exact R1|]. split; [exact R2|]. split; [exact R3|].
  split; [exact R4|].
  exact (proj1 (all_succeed_replays_nothing psqlNeedsFile "/var/lib/pg"
                  host H1 H2)
               psqlNeedsFile_needs_its_file).
Defined.

Lemma rename_failure_aborts_witness :
  In (eventAt 7 (snd renameRun)) (events (snd renameRun))
  /\ ev_op (eventAt 7 (snd renameRun))
     = OpRename "/var/lib/pg" "/var/lib/pg.old"
  /\ ev_result (eventAt 7 (snd renameRun))
     = Some (errors_New "permission denied")
  /\ fst renameRun
     = Some (Wrapf "failed to rename PGDATA"
                   (errors_New "permission denied"))
  /\ machine (snd renameRun) = ev_seen (eventAt 7 (snd renameRun)).
Proof.
  unfold renameRun.
  assert (H1 : In (eventAt 7 (snd (run failingRename "/var/lib/pg" host)))
                  (events (snd (run failingRename "/var/lib/pg" host))))
    by (apply eventAt_In; vm_compute; lia).
  assert (H2 : ev_op (eventAt 7 (snd (run failingRename "/var/lib/pg"
                                         host)))
               = OpRename "/var/lib/pg" ("/var/lib/pg" ++ ".old"))
    by (vm_compute; reflexivity).
  assert (H3 : ev_result (eventAt 7 (snd (run failingRename "/var/lib/pg"
                                             host)))
               = Some (errors_New "permission denied"))
    by (vm_compute; reflexivity).
  split; [exact H1|]. split; [exact H2|]. split; [exact H3|].
  destruct (rename_failure_aborts failingRename "/var/lib/pg" host _ _
              H1 H2 H3) as (R1 & _ & R3 & _).
  split; [exact R1|exact R3].
Defined.

Lemma cleanup_stop_never_masks_witness :
  In (eventAt 4 (snd dumpRun)) (events (snd dumpRun))
  /\ ev_op (eventAt 4 (snd dumpRun))
     = OpRunStreaming (dumpCmd "/var/lib/pg") "pg_dumpall"
  /\ ev_result (eventAt 4 (snd dumpRun)) = Some (ExitError "pg_dumpall" 1)
  /\ exists before stop,
       events (snd dumpRun) = before ++ [eventAt 4 (snd dumpRun); stop]
       /\ ev_op stop = OpRun (Command "pg_ctl" ["-D"; "/var/lib/pg"; "stop"])
       /\ postmaster (ev_seen stop) = Some (path.resolve "/var/lib/pg")
       /\ fst dumpRun
          = Some (Wrapf "pg_dumpall failed" (ExitError "pg_dumpall" 1)).
Proof.
  unfold dumpRun.
  assert (H1 : In (eventAt 4 (snd (run (failingTool "pg_dumpall")
                                      "/var/lib/pg" host)))
                  (events (snd (run (failingTool "pg_dumpall")
                                    "/var/lib/pg" host))))
    by (apply eventAt_In; vm_compute; lia).
  assert (H2 : ev_op (eventAt 4 (snd (run (failingTool "pg_dumpall")
                                         "/var/lib/pg" host)))
               = OpRunStreaming (dumpCmd "/var/lib/pg") "pg_dumpall")
    by (vm_compute; reflexivity).
  assert (H3 : ev_result (eventAt 4 (snd (run (failingTool "pg_dumpall")
                                             "/var/lib/pg" host)))
               = Some (ExitError "pg_dumpall" 1))
    by (vm_compute; reflexivity).
  split; [exact H1|]. split; [exact H2|]. split; [exact H3|].
  destruct (cleanup_stop_never_masks (failingTool "pg_dumpall")
              "/var/lib/pg" host _ _ H1 (or_introl H2) H3)
    as (before & stop & R1 & _ & R2 & R3 & _ & _ & R4 & _).
  exists before, stop. split; [exact R1|]. split; [exact R2|].
  split; [exact R3|]. exact (R4 H2).
Defined.

Lemma restore_failure_keeps_backup_witness :
  In (eventAt 10 (snd psqlRun)) (events (snd psqlRun))
  /\ ev_op (eventAt 10 (snd psqlRun))
     = OpRunStreaming (restoreCmd "/var/lib/pg") "psql"
  /\ ev_result (eventAt 10 (snd psqlRun)) = Some (ExitError "psql" 1)
  /\ fst psqlRun = Some (Wrapf "restore failed" (ExitError "psql" 1))
  /\ lookup "/var/lib/pg.old" (machine (snd psqlRun)) <> None.
Proof.
  unfold psqlRun.
  assert (H1 : In (eventAt 10 (snd (run psqlNeedsFile "/var/lib/pg" host)))
                  (events (snd (run psqlNeedsFile "/var/lib/pg" host))))
    by (apply eventAt_In; vm_compute; lia).
  assert (H2 : ev_op (eventAt 10 (snd (run psqlNeedsFile "/var/lib/pg"
                                          host)))
               = OpRunStreaming (restoreCmd "/var/lib/pg") "psql")
    by (vm_compute; reflexivity).
  assert (H3 : ev_result (eventAt 10 (snd (run psqlNeedsFile "/var/lib/pg"
                                              host)))
               = Some (ExitError "psql" 1))
    by (vm_compute; reflexivity).
  split; [exact H1|]. split; [exact H2|]. split; [exact H3|].
  destruct (restore_failure_keeps_backup psqlNeedsFile "/var/lib/pg" host
              _ _ H1 H2 H3) as (R1 & _ & R3 & _).
  split; [exact R1|exact R3].
Defined.

End Executor.

(* ================================================================= *)
(** * The trigger *)

Module Trigger.

Import majorupgrade samples.

Section Reconcile.

Variable GetPostgresqlMajorVersion : Cluster -> Z * option error.
Variable getPrimarySerial : list PersistentVolumeClaim -> Z * option error.
Variable PhaseMajorUpgrade : string.

Local Abbreviation Reconcile :=
  (ReconcileDowngrade GetPostgresqlMajorVersion getPrimarySerial
                      PhaseMajorUpgrade).

Local Abbreviation sent :=
  (issued GetPostgresqlMajorVersion getPrimarySerial PhaseMajorUpgrade).

Lemma snoc_neq {A} (l : list A) x : l ++ [x] <> l.
Proof.
  intros H. apply (f_equal (@length A)) in H.
  rewrite List.length_app in H. cbn [length] in H. lia.
Qed.

Lemma skipn_snoc2 {A} (l : list A) x y :
  skipn (length l) ((l ++ [x]) ++ [y]) = [x; y].
Proof.
  rewrite <- app_assoc. induction l; [reflexivity|assumption].
Qed.

Lemma skipn_snoc1 {A} (l : list A) x : skipn (length l) (l ++ [x]) = [x].
Proof. induction l; [reflexivity|assumption]. Qed.

Lemma skipn_self {A} (l : list A) : skipn (length l) l = [].
Proof. apply skipn_all. Qed.

Lemma Reconcile_course c instances pvcs st :
  Course GetPostgresqlMajorVersion getPrimarySerial PhaseMajorUpgrade
         c pvcs st (Reconcile c instances pvcs st).
Proof.
  unfold ReconcileDowngrade, bind, readCluster, ret.
  destruct (GetPostgresqlMajorVersion (cluster st)) as [t [e|]] eqn:Hv;
    [now apply (ParseFailed _ _ _ _ _ _ t e)|].
  destruct (Status_PGDataImageInfo (cluster st)) as [info|] eqn:Hi.
  2: { apply (NotRequired _ _ _ _ _ _ t Hv). intros (i & Hs & _).
       congruence. }
  destruct (t >=? MajorVersion info)%Z eqn:Hge.
  { apply (NotRequired _ _ _ _ _ _ t Hv). intros (i & Hs & Hlt).
    assert (i = info) by congruence. subst i.
    apply Z.geb_le in Hge. lia. }
  assert (Hlt : (t < MajorVersion info)%Z).
  { rewrite Z.geb_leb in Hge. apply Z.leb_gt in Hge. exact Hge. }
  assert (Hreq : downgradeRequired (cluster st) t) by (exists info; auto).
  destruct (getPrimarySerial pvcs) as [n err] eqn:Hs.
  destruct err as [e|]; cbn [isSome orb].
  { apply (NoPrimary _ _ _ _ _ _ t n (Some e)); auto. left; discriminate. }
  destruct (n =? 0)%Z eqn:Hn.
  { apply Z.eqb_eq in Hn. apply (NoPrimary _ _ _ _ _ _ t n None); auto. }
  apply Z.eqb_neq in Hn.
  assert (Hprim : primaryResolves getPrimarySerial pvcs n) by (split; auto).
  unfold registerPhase. fold (phaseReason (MajorVersion info) t).
  destruct (phase_fault c PhaseMajorUpgrade
              (phaseReason (MajorVersion info) t) st) as [e|] eqn:Hp.
  { now apply (PhaseFailed _ _ _ _ _ _ t info n e). }
  cbn [cluster]. unfold ctrl_SetControllerReference.
  destruct (Scheme_fault c _) as [e|] eqn:Ho.
  { now apply (OwnerFailed _ _ _ _ _ _ t info n e). }
  unfold Create, createMajorDowngradeJobDefinition, specs_CreatePrimaryJob,
    jobMajorDowngrade.
  cbn [job_cluster job_targetNode job_role job_command cluster jobs requests
       Name setPhase].
  fold (downgradeUnit (cluster st) n).
  match goal with
  | |- context [create_fault c ?j ?s] =>
      destruct (create_fault c j s) as [e|] eqn:Hc
  end.
  - now apply (CreateFailed _ _ _ _ _ _ t info n e).
  - now apply (Scheduled _ _ _ _ _ _ t info n).
Qed.

(** C9: when no primary resolves -- the lookup gives an error, or the
    serial 0 -- the invocation leaves the state as it is, with no phase
    recorded, no unit created and no request made, returns no result,
    and, when the lookup is reached, returns the error of the lookup,
    if any. *)
Theorem no_primary_no_side_effect c instances pvcs st n err :
  getPrimarySerial pvcs = (n, err) ->
  err <> None \/ n = 0%Z ->
  snd (Reconcile c instances pvcs st) = st
  /\ sent c instances pvcs st = []
  /\ fst (fst (Reconcile c instances pvcs st)) = None
  /\ (forall t,
        GetPostgresqlMajorVersion (cluster st) = (t, None) ->
        downgradeRequired (cluster st) t ->
        snd (fst (Reconcile c instances pvcs st)) = err).
Proof.
  intros Hs Hno. unfold issued.
  destruct (Reconcile_course c instances pvcs st)
    as [t e Hv|t Hv Hnr|t n' err' Hv Hr Hs' _
        |t info n' e Hv _ _ [Hs' Hn] _|t info n' e Hv _ _ [Hs' Hn]
        |t info n' e Hv _ _ [Hs' Hn] _|t info n' Hv _ _ [Hs' Hn] _];
    cbn [fst snd].
  1-3: rewrite skipn_self; repeat split; auto.
  1: intros t' Hv'; congruence.
  1: intros t' Hv' Hr'; assert (t' = t) by congruence; subst; contradiction.
  1: intros; congruence.
  all: exfalso; assert (E : (n, err) = (n', None)) by congruence;
    injection E as -> ->; destruct Hno; congruence.
Qed.

(** The invocation in which the three calls succeed. *)
Lemma Reconcile_scheduled c instances pvcs st t info n :
  GetPostgresqlMajorVersion (cluster st) = (t, None) ->
  Status_PGDataImageInfo (cluster st) = Some info ->
  (t < MajorVersion info)%Z ->
  primaryResolves getPrimarySerial pvcs n ->
  callsSucceed PhaseMajorUpgrade c st (MajorVersion info) t n ->
  Reconcile c instances pvcs st
  = (Some (mkResult true), None,
     mkState (setPhase (cluster st) PhaseMajorUpgrade
                       (phaseReason (MajorVersion info) t))
       (jobs st ++ [downgradeUnit (cluster st) n])
       ((requests st
         ++ [ReqPhase PhaseMajorUpgrade (phaseReason (MajorVersion info) t)])
        ++ [ReqCreate (downgradeUnit (cluster st) n)])).
Proof.
  intros Hv Hi Hlt [Hs Hn] (Hphase & Howner & Hcreate).
  cbn [cluster] in Howner.
  assert (Hreq : downgradeRequired (cluster st) t) by (exists info; auto).
  destruct (Reconcile_course c instances pvcs st)
    as [t' e Hv'|t' Hv' Hnr|t' n' err' Hv' Hr Hs' Hno
        |t' info' n' e Hv' Hi' _ [Hs' Hn'] Hp'
        |t' info' n' e Hv' Hi' _ [Hs' Hn'] Hp' Ho'
        |t' info' n' e Hv' Hi' _ [Hs' Hn'] Hc' Hp' Ho'
        |t' info' n' Hv' Hi' _ [Hs' Hn'] Hc' Hp' Ho'].
  - congruence.
  - assert (t' = t) by congruence. subst. contradiction.
  - assert (E : (n', err') = (n, None)) by congruence.
    injection E as -> ->. destruct Hno; congruence.
  - assert (t' = t) by congruence. assert (info' = info) by congruence.
    subst. congruence.
  - assert (t' = t) by congruence. assert (info' = info) by congruence.
    subst. congruence.
  - assert (t' = t) by congruence. assert (info' = info) by congruence.
    assert (n' = n) by congruence. subst. congruence.
  - assert (t' = t) by congruence. assert (info' = info) by congruence.
    assert (n' = n) by congruence. subst. reflexivity.
Qed.

(** C8: when a downgrade is required and a primary resolves, the
    invocation first asks for the phase, with the message
    [Downgrading cluster from version <recorded> to <target>], and
    after it, at most once, for the creation of the unit: pinned to the
    primary's node, with the fixed downgrade command, owned by the
    cluster.  When the three calls that leave the trigger succeed (the
    phase request, the lookup of the owner, the creation), these two
    are its requests, the message is on the cluster, that unit is the
    one unit added, the result asks for a requeue and no error is
    returned; no error is returned only then; and when an error is
    returned, no unit is added. *)
Theorem downgrade_schedules_one_unit c instances pvcs st t info n :
  GetPostgresqlMajorVersion (cluster st) = (t, None) ->
  Status_PGDataImageInfo (cluster st) = Some info ->
  (t < MajorVersion info)%Z ->
  primaryResolves getPrimarySerial pvcs n ->
  let unit :=
    mkJob (Name (cluster st)) n jobMajorDowngrade
          ["/controller/manager"; "instance"; "downgrade"; "execute"]
          (Some (Name (cluster st))) in
  let reason :=
    ("Downgrading cluster from version " ++ format_int (MajorVersion info)
       ++ " to " ++ format_int t)%string in
  let st1 :=
    mkState (setPhase (cluster st) PhaseMajorUpgrade reason) (jobs st)
            (requests st ++ [ReqPhase PhaseMajorUpgrade reason]) in
  (sent c instances pvcs st = [ReqPhase PhaseMajorUpgrade reason]
   \/ sent c instances pvcs st
      = [ReqPhase PhaseMajorUpgrade reason; ReqCreate unit])
  /\ (phase_fault c PhaseMajorUpgrade reason st = None ->
      Scheme_fault c (cluster st1) = None ->
      create_fault c unit st1 = None ->
      sent c instances pvcs st
      = [ReqPhase PhaseMajorUpgrade reason; ReqCreate unit]
      /\ jobs (snd (Reconcile c instances pvcs st)) = jobs st ++ [unit]
      /\ Status_PhaseReason (cluster (snd (Reconcile c instances pvcs st)))
         = reason
      /\ fst (Reconcile c instances pvcs st)
         = (Some (mkResult true), None))
  /\ (snd (fst (Reconcile c instances pvcs st)) = None ->
      callsSucceed PhaseMajorUpgrade c st (MajorVersion info) t n
      /\ sent c instances pvcs st
         = [ReqPhase PhaseMajorUpgrade reason; ReqCreate unit]
      /\ jobs (snd (Reconcile c instances pvcs st)) = jobs st ++ [unit]
      /\ Status_PhaseReason (cluster (snd (Reconcile c instances pvcs st)))
         = reason
      /\ fst (fst (Reconcile c instances pvcs st)) = Some (mkResult true))
  /\ (snd (fst (Reconcile c instances pvcs st)) <> None ->
      jobs (snd (Reconcile c instances pvcs st)) = jobs st
      /\ fst (fst (Reconcile c instances pvcs st)) = None).
Proof.
  intros Hv Hi Hlt Hprim unit reason st1.
  split; [|split].
  2: { intros Hphase Howner Hcreate. unfold issued.
       rewrite (Reconcile_scheduled c instances pvcs st t info n
                  Hv Hi Hlt Hprim (conj Hphase (conj Howner Hcreate))).
       cbn [fst snd jobs requests cluster]. rewrite skipn_snoc2.
       repeat split. }
  all: destruct Hprim as [Hs Hn]; unfold issued.
  all: assert (Hreq : downgradeRequired (cluster st) t)
    by (exists info; auto).
  all: destruct (Reconcile_course c instances pvcs st)
    as [t' e Hv'|t' Hv' Hnr|t' n' err' Hv' Hr Hs' Hno
        |t' info' n' e Hv' Hi' _ [Hs' Hn'] Hp'
        |t' info' n' e Hv' Hi' _ [Hs' Hn'] Hp' Ho'
        |t' info' n' e Hv' Hi' _ [Hs' Hn'] Hc' Hp' Ho'
        |t' info' n' Hv' Hi' _ [Hs' Hn'] Hc' Hp' Ho'];
    cbn [fst snd jobs requests cluster].
  all: try congruence.
  all: try (assert (t' = t) by congruence; subst; contradiction).
  all: try (assert (E : (n', err') = (n, None)) by congruence;
            injection E as -> ->; destruct Hno; congruence).
  all: assert (t' = t) by congruence; assert (info' = info) by congruence;
    try assert (n' = n) by congruence; subst;
    rewrite ?skipn_snoc1, ?skipn_snoc2.
  - now left.
  - now left.
  - now right.
  - now right.
  - split; [discriminate|]. now intros _.
  - split; [discriminate|]. now intros _.
  - split; [discriminate|]. now intros _.
  - split; [|intros H; now destruct H].
    intros _. repeat split; assumption.
Qed.

(** C10: an invocation that creates a unit has recorded the phase
    [PhaseMajorUpgrade] on the cluster, and no invocation asks for any
    other phase. *)
Theorem scheduled_phase_is_PhaseMajorUpgrade c instances pvcs st :
  jobs (snd (Reconcile c instances pvcs st)) <> jobs st ->
  Status_Phase (cluster (snd (Reconcile c instances pvcs st)))
  = PhaseMajorUpgrade
  /\ (exists reason,
        In (ReqPhase PhaseMajorUpgrade reason)
           (issued GetPostgresqlMajorVersion getPrimarySerial
                   PhaseMajorUpgrade c instances pvcs st))
  /\ (forall phase reason,
        In (ReqPhase phase reason)
           (issued GetPostgresqlMajorVersion getPrimarySerial
                   PhaseMajorUpgrade c instances pvcs st) ->
        phase = PhaseMajorUpgrade).
Proof.
  intros Hnew. unfold issued.
  destruct (Reconcile_course c instances pvcs st);
    cbn [fst snd jobs cluster requests] in Hnew |- *;
    try contradiction.
  rewrite skipn_snoc2. split; [reflexivity|]. split.
  - eexists. left. reflexivity.
  - intros phase reason [Hq|[Hq|[]]]; congruence.
Qed.

(** C3, as amended: given a target version that parses, a unit is
    created exactly when a recorded version exists, the target is
    strictly less, a primary resolves and the three calls that leave
    the trigger succeed (the phase request, the lookup of the owner,
    the creation); when no recorded version exists or the target is not
    less, the invocation returns nothing and leaves the state as it
    is. *)
Theorem unit_created_iff c instances pvcs st t :
  GetPostgresqlMajorVersion (cluster st) = (t, None) ->
  (jobs (snd (Reconcile c instances pvcs st)) <> jobs st
   <-> downgradeRequired (cluster st) t
       /\ (exists info n,
             Status_PGDataImageInfo (cluster st) = Some info
             /\ primaryResolves getPrimarySerial pvcs n
             /\ callsSucceed PhaseMajorUpgrade c st (MajorVersion info)
                             t n))
  /\ (~ downgradeRequired (cluster st) t ->
      Reconcile c instances pvcs st = (None, None, st)).
Proof.
  intros Hv. split.
  - split.
    + intros Hnew.
      destruct (Reconcile_course c instances pvcs st)
        as [| | | | | |t' info' n' Hv' Hi' Hlt Hp Hc Hphase Howner];
        cbn [fst snd jobs] in Hnew; try contradiction.
      assert (t' = t) by congruence. subst t'.
      split; [now exists info'|].
      exists info', n'. repeat split; try assumption; apply Hp.
    + intros ((info0 & Hi0 & Hlt0) & info & n & Hi & Hp & Hcalls).
      assert (info0 = info) by congruence. subst info0.
      rewrite (Reconcile_scheduled c instances pvcs st t info n
                 Hv Hi Hlt0 Hp Hcalls).
      cbn [snd jobs]. apply snoc_neq.
  - intros Hnr.
    destruct (Reconcile_course c instances pvcs st)
      as [t' e Hv'|t' Hv' _|t' n' err' Hv' Hr _ _
          |t' info' n' e Hv' Hi' Hlt _ _
          |t' info' n' e Hv' Hi' Hlt _ _ _
          |t' info' n' e Hv' Hi' Hlt _ _ _ _
          |t' info' n' Hv' Hi' Hlt _ _ _ _];
      try reflexivity;
      try (assert (t' = t) by congruence; subst t').
    + congruence.
    + contradiction.
    + destruct Hnr. now exists info'.
    + destruct Hnr. now exists info'.
    + destruct Hnr. now exists info'.
    + destruct Hnr. now exists info'.
Qed.

(** C4, as amended: the trigger looks neither at the units that exist
    nor at the phase.  An invocation that creates the unit leaves a
    state that holds it, and an invocation on a state that holds it
    leaves one that holds it.  On such a state, when a downgrade is
    required, a primary resolves and the phase request and the lookup
    of the owner succeed, the invocation asks for the creation of that
    very unit again; with a client that refuses to create a unit the
    API server already holds, it creates no further unit and returns
    no result. *)
Theorem duplicate_refused_by_client c instances pvcs st :
  (jobs (snd (Reconcile c instances pvcs st)) <> jobs st ->
   holdsUnit getPrimarySerial pvcs (snd (Reconcile c instances pvcs st)))
  /\ (holdsUnit getPrimarySerial pvcs st ->
      holdsUnit getPrimarySerial pvcs (snd (Reconcile c instances pvcs st)))
  /\ (holdsUnit getPrimarySerial pvcs st ->
      forall t info n,
        GetPostgresqlMajorVersion (cluster st) = (t, None) ->
        Status_PGDataImageInfo (cluster st) = Some info ->
        (t < MajorVersion info)%Z ->
        primaryResolves getPrimarySerial pvcs n ->
        phase_fault c PhaseMajorUpgrade
                    (phaseReason (MajorVersion info) t) st = None ->
        Scheme_fault c (setPhase (cluster st) PhaseMajorUpgrade
                                 (phaseReason (MajorVersion info) t))
        = None ->
        In (downgradeUnit (cluster st) n) (jobs st)
        /\ In (ReqCreate (downgradeUnit (cluster st) n))
              (sent c instances pvcs st))
  /\ (holdsUnit getPrimarySerial pvcs st ->
      refusesDuplicates c ->
      jobs (snd (Reconcile c instances pvcs st)) = jobs st
      /\ fst (fst (Reconcile c instances pvcs st)) = None).
Proof.
  unfold holdsUnit, issued.
  split; [|split; [|split]].
  - intros Hnew n Hprim.
    destruct (Reconcile_course c instances pvcs st)
      as [| | | | | |t info n' Hv Hi Hlt [Hs Hn] _ _ _];
      cbn [fst snd jobs cluster] in Hnew |- *; try contradiction.
    assert (n' = n) by (destruct Hprim; congruence). subst n'.
    apply in_or_app. right. left. reflexivity.
  - intros Hheld n Hprim. specialize (Hheld n Hprim).
    destruct (Reconcile_course c instances pvcs st);
      cbn [fst snd jobs cluster]; try exact Hheld.
    apply in_or_app. now left.
  - intros Hheld t info n Hv Hi Hlt Hprim Hphase Howner.
    split; [now apply Hheld|].
    assert (Hreq : downgradeRequired (cluster st) t)
      by (exists info; auto).
    destruct Hprim as [Hs Hn].
    destruct (Reconcile_course c instances pvcs st)
      as [t' e Hv'|t' Hv' Hnr|t' n' err' Hv' Hr Hs' Hno
          |t' info' n' e Hv' Hi' _ [Hs' Hn'] Hp'
          |t' info' n' e Hv' Hi' _ [Hs' Hn'] Hp' Ho'
          |t' info' n' e Hv' Hi' _ [Hs' Hn'] Hc' Hp' Ho'
          |t' info' n' Hv' Hi' _ [Hs' Hn'] Hc' Hp' Ho'];
      cbn [fst snd jobs requests cluster].
    all: try congruence.
    all: try (assert (t' = t) by congruence; subst; contradiction).
    all: try (assert (E : (n', err') = (n, None)) by congruence;
              injection E as -> ->; destruct Hno; congruence).
    all: assert (t' = t) by congruence;
      assert (info' = info) by congruence;
      try assert (n' = n) by congruence; subst; try congruence.
    all: rewrite skipn_snoc2; right; left; reflexivity.
  - intros Hheld Hstrict.
    destruct (Reconcile_course c instances pvcs st)
      as [| | | | |
          |t info n Hv Hi Hlt Hprim Hcreated _ _];
      cbn [fst snd jobs]; auto.
    exfalso. revert Hcreated. apply Hstrict. cbn [jobs].
    now apply Hheld.
Qed.

End Reconcile.

(** ** The sample cluster *)

Local Abbreviation reconcile :=
  (ReconcileDowngrade declaredMajor primarySerial phaseMajorUpgrade).

(** C3, as stated, fails: on the sample cluster (recorded version 17,
    target 15) with no volume claim that carries the primary role, a
    downgrade is required and yet no unit is created. *)
Lemma no_unit_without_primary :
  ~ (jobs (snd (reconcile obliging [] [] pg17to15)) <> jobs pg17to15
     <-> downgradeRequired (cluster pg17to15) 15).
Proof.
  intros [_ H]. apply H; [|reflexivity].
  exists (mkImageInfo "postgres:17" 17).
  split; [reflexivity|cbn [MajorVersion]; lia].
Qed.

Lemma unit_created_iff_witness :
  declaredMajor (cluster pg17to15) = (15%Z, None)
  /\ (jobs (snd (reconcile obliging [] members pg17to15)) <> jobs pg17to15
      <-> downgradeRequired (cluster pg17to15) 15
          /\ (exists info n,
                Status_PGDataImageInfo (cluster pg17to15) = Some info
                /\ primaryResolves primarySerial members n
                /\ callsSucceed phaseMajorUpgrade obliging pg17to15
                                (MajorVersion info) 15 n)).
Proof.
  assert (H : declaredMajor (cluster pg17to15) = (15%Z, None))
    by reflexivity.
  split; [exact H|].
  exact (proj1 (unit_created_iff declaredMajor primarySerial
                  phaseMajorUpgrade obliging [] members pg17to15 15 H)).
Defined.

(** C4, as stated, fails: the trigger looks neither at the units that
    exist nor at the phase it recorded; with a client that creates
    what it is asked to, the invocation that follows one which created
    a unit creates the same unit a second time. *)
Lemma second_invocation_creates_second_unit :
  ~ (forall c pvcs st,
       jobs (snd (reconcile c [] pvcs st)) <> jobs st ->
       jobs (snd (reconcile c [] pvcs (snd (reconcile c [] pvcs st))))
       = jobs (snd (reconcile c [] pvcs st))).
Proof.
  intros H. specialize (H obliging members pg17to15).
  assert (Hnew : jobs (snd (reconcile obliging [] members pg17to15))
                 <> jobs pg17to15) by (vm_compute; discriminate).
  specialize (H Hnew). vm_compute in H. discriminate H.
Qed.

Lemma strict_refuses_duplicates : refusesDuplicates strict.
Proof.
  intros job st0 Hin. cbn [create_fault strict].
  assert (E : existsb
                (fun j => (job_cluster j =? job_cluster job)
                          && (job_targetNode j =? job_targetNode job)%Z
                          && (job_role j =? job_role job))
                (jobs st0) = true).
  { apply existsb_exists. exists job. split; [exact Hin|].
    now rewrite !String.eqb_refl, Z.eqb_refl. }
  rewrite E. discriminate.
Qed.

Lemma duplicate_refused_by_client_witness :
  jobs (snd (reconcile strict [] members pg17to15)) <> jobs pg17to15
  /\ refusesDuplicates strict
  /\ jobs (snd (reconcile strict [] members
                  (snd (reconcile strict [] members pg17to15))))
     = jobs (snd (reconcile strict [] members pg17to15))
  /\ fst (fst (reconcile strict [] members
                 (snd (reconcile strict [] members pg17to15))))
     = None.
Proof.
  assert (Hnew : jobs (snd (reconcile strict [] members pg17to15))
                 <> jobs pg17to15) by (vm_compute; discriminate).
  split; [exact Hnew|]. split; [exact strict_refuses_duplicates|].
  exact (proj2 (proj2 (proj2
           (duplicate_refused_by_client declaredMajor primarySerial
              phaseMajorUpgrade strict [] members
              (snd (reconcile strict [] members pg17to15)))))
           (proj1 (duplicate_refused_by_client declaredMajor primarySerial
                     phaseMajorUpgrade strict [] members pg17to15)
                  Hnew)
           strict_refuses_duplicates).
Defined.

Lemma downgrade_schedules_one_unit_witness :
  declaredMajor (cluster pg17to15) = (15%Z, None)
  /\ Status_PGDataImageInfo (cluster pg17to15)
     = Some (mkImageInfo "postgres:17" 17)
  /\ (15 < 17)%Z
  /\ primaryResolves primarySerial members 2
  /\ issued declaredMajor primarySerial phaseMajorUpgrade
            obliging [] members pg17to15
     = [ReqPhase phaseMajorUpgrade
                 "Downgrading cluster from version 17 to 15";
        ReqCreate (mkJob "pg" 2 "major-downgrade"
                         ["/controller/manager"; "instance"; "downgrade";
                          "execute"]
                         (Some "pg"))]
  /\ jobs (snd (reconcile obliging [] members pg17to15))
     = [mkJob "pg" 2 "major-downgrade"
              ["/controller/manager"; "instance"; "downgrade"; "execute"]
              (Some "pg")]
  /\ Status_PhaseReason (cluster (snd (reconcile obliging [] members
                                         pg17to15)))
     = "Downgrading cluster from version 17 to 15"
  /\ fst (fst (reconcile obliging [] members pg17to15))
     = Some (mkResult true).
Proof.
  assert (H1 : declaredMajor (cluster pg17to15) = (15%Z, None))
    by reflexivity.
  assert (H2 : Status_PGDataImageInfo (cluster pg17to15)
               = Some (mkImageInfo "postgres:17" 17)) by reflexivity.
  assert (H3 : (15 < MajorVersion (mkImageInfo "postgres:17" 17))%Z)
    by (cbn [MajorVersion]; lia).
  assert (H4 : primaryResolves primarySerial members 2)
    by (split; [reflexivity|lia]).
  split; [exact H1|]. split; [exact H2|]. split; [exact H3|].
  split; [exact H4|].
  destruct (proj1 (proj2 (downgrade_schedules_one_unit declaredMajor
                            primarySerial phaseMajorUpgrade obliging []
                            members pg17to15 15
                            (mkImageInfo "postgres:17" 17) 2 H1 H2 H3 H4))
                  eq_refl eq_refl eq_refl)
    as (R1 & R2 & R3 & R4).
  split; [exact R1|]. split; [exact R2|]. split; [exact R3|].
  exact (f_equal fst R4).
Defined.

Lemma no_primary_no_side_effect_witness :
  primarySerial [mkPVC "replica" (Some 1%Z)] = (0%Z, None)
  /\ snd (reconcile obliging [] [mkPVC "replica" (Some 1%Z)] pg17to15)
     = pg17to15
  /\ fst (fst (reconcile obliging [] [mkPVC "replica" (Some 1%Z)] pg17to15))
     = None.
Proof.
  assert (H : primarySerial [mkPVC "replica" (Some 1%Z)] = (0%Z, None))
    by reflexivity.
  split; [exact H|].
  destruct (no_primary_no_side_effect declaredMajor primarySerial
              phaseMajorUpgrade obliging [] [mkPVC "replica" (Some 1%Z)]
              pg17to15 0 None H (or_intror eq_refl))
    as (R1 & _ & R3 & _).
  split; [exact R1|exact R3].
Defined.

Lemma scheduled_phase_is_PhaseMajorUpgrade_witness :
  jobs (snd (reconcile obliging [] members pg17to15)) <> jobs pg17to15
  /\ Status_Phase (cluster (snd (reconcile obliging [] members pg17to15)))
     = phaseMajorUpgrade.
Proof.
  assert (Hnew : jobs (snd (reconcile obliging [] members pg17to15))
                 <> jobs pg17to15) by (vm_compute; discriminate).
  split; [exact Hnew|].
  exact (proj1 (scheduled_phase_is_PhaseMajorUpgrade declaredMajor
                  primarySerial phaseMajorUpgrade obliging [] members
                  pg17to15 Hnew)).
Defined.

End Trigger.

(* ================================================================= *)
(** * More about the executor *)

Module ExecutorMore.

Import path downgrade samples command PathFacts Executor.

(** ** The entry point *)

(** X1: [execute] returns [PGDATA not set] exactly when the data
    directory is given neither by the flag nor by the environment (or
    is given as the empty string); it has then performed no
    operation. *)
Theorem PGDATA_not_set_iff env Getenv flags m :
  (fst (newExecuteCmd_RunE env Getenv flags (start m))
   = Some (errors_New "PGDATA not set")
   <-> StringVar (pg_data flags) (Getenv "PGDATA") = "")
  /\ (StringVar (pg_data flags) (Getenv "PGDATA") = "" ->
      snd (newExecuteCmd_RunE env Getenv flags (start m)) = start m).
Proof.
  change (newExecuteCmd_RunE env Getenv flags (start m))
    with (run env (StringVar (pg_data flags) (Getenv "PGDATA")) m).
  generalize (StringVar (pg_data flags) (Getenv "PGDATA")) as pgData.
  intros pgData. split; [split|].
  - intros Herr.
    run_leaves env pgData m; cbv beta iota delta [fst] in Herr;
      try discriminate.
    now apply String.eqb_eq in Hset.
  - intros ->. reflexivity.
  - intros ->. reflexivity.
Qed.

(** ** The order of the operations *)

Ltac prefix_of_plan n :=
  first
    [ exists n; left; split;
      [ reflexivity
      | let ev := fresh "ev" in
        let Hin := fresh "Hin" in
        let Hop := fresh "Hop" in
        intros ev Hin Hop; pick_event Hin;
        cbv beta iota delta [ev_op ev_result] in Hop |- *;
        first [reflexivity | destruct Hop; discriminate] ]
    | exists n; right; split;
      [ first [left; reflexivity | right; reflexivity]
      | split;
        [ reflexivity
        | eexists; split; [reflexivity|discriminate] ] ]
    | lazymatch n with
      | S ?k => prefix_of_plan k
      end ].

(** X2: the operations of a run are the first operations of the plan,
    in its order and each once.  [pg_ctl -D pgData stop], the cleanup
    stop, follows them exactly when the last of them is the export or
    the restore and that one failed; in no other run is there a failed
    export or restore. *)
Theorem log_follows_plan env pgData m :
  exists n,
    (map ev_op (events (snd (run env pgData m)))
     = firstn n (plan env pgData)
     /\ forall ev,
          In ev (events (snd (run env pgData m))) ->
          ev_op ev = OpRunStreaming (dumpCmd pgData) "pg_dumpall"
          \/ ev_op ev = OpRunStreaming (restoreCmd pgData) "psql" ->
          ev_result ev = None)
    \/ ((n = 5 \/ n = 11)
        /\ map ev_op (events (snd (run env pgData m)))
           = firstn n (plan env pgData)
             ++ [OpRun (Command "pg_ctl" ["-D"; pgData; "stop"])]
        /\ exists ev,
             nth_error (events (snd (run env pgData m))) (n - 1) = Some ev
             /\ ev_result ev <> None).
Proof.
  run_leaves env pgData m; cbv beta iota delta [snd events];
    prefix_of_plan 13.
Qed.

(** X3: a run returns no error only if the data directory parameter is
    not empty, every operation of the plan was performed, in order, and
    each succeeded. *)
Theorem nil_only_after_every_step env pgData m :
  fst (run env pgData m) = None ->
  pgData <> ""
  /\ map ev_op (events (snd (run env pgData m))) = plan env pgData
  /\ forallb succeeded (events (snd (run env pgData m))) = true.
Proof.
  intros Hnil.
  run_leaves env pgData m; cbv beta iota delta [fst] in Hnil;
    try discriminate.
  all: apply String.eqb_neq in Hset.
  all: cbv beta iota delta [snd events].
  all: split; [exact Hset|]; split; [reflexivity|].
  all: cbv beta iota delta [forallb succeeded ev_result ev_op andb];
    try rewrite Enx; reflexivity.
Qed.

(** ** Failures *)

(** X4: a run that returns an error returns [PGDATA not set], having
    done nothing, or the error of the one operation that failed,
    wrapped: every operation before that one succeeded, and nothing
    follows it but the cleanup stop. *)
Theorem first_failure_is_returned env pgData m err :
  fst (run env pgData m) = Some err ->
  (pgData = "" /\ err = errors_New "PGDATA not set"
   /\ events (snd (run env pgData m)) = [])
  \/ exists before ev cause,
       (events (snd (run env pgData m)) = before ++ [ev]
        \/ exists stop,
             events (snd (run env pgData m)) = before ++ [ev; stop]
             /\ ev_op stop = OpRun (cleanupStopCmd pgData))
       /\ forallb succeeded before = true
       /\ succeeded ev = false
       /\ ev_result ev = Some cause
       /\ Unwrap err = Some cause.
Proof.
  intros Herr.
  run_leaves env pgData m; cbv beta iota delta [fst] in Herr;
    try discriminate; injection Herr as <-.
  { left. apply String.eqb_eq in Hset. now subst. }
  all: right; cbv beta iota delta [snd events].
  all: eexists _, _, _; split;
    [ first
        [ right; eexists; split;
          [ apply ends_with; cbv beta iota delta [rev app]; reflexivity
          | reflexivity ]
        | left; apply ends_with1; cbv beta iota delta [rev app];
          reflexivity ]
    | ].
  all: cbv beta iota delta [rev app forallb succeeded ev_result ev_op andb];
    try rewrite Enx; repeat split.
Qed.

(** ** The machine along a run *)

Section Along.

Variable p : string.
Variable m3 : Machine.

Local Abbreviation kD := (path.resolve p).
Local Abbreviation kO := (path.resolve (p ++ ".old")).
Local Abbreviation kF := (path.resolve (dumpFile p)).
Local Abbreviation written :=
  (fs_set kF (File (DumpAll (Some kD))) (fs m3)).
Local Abbreviation sanitized :=
  (fs_set kF (File (SedInPlace (Args (sanitizeCmd p)) (DumpAll (Some kD))))
          written).
Local Abbreviation moved := (fs_move kD kO sanitized).
Local Abbreviation fresh := (fs_set kD (Dir PgFresh) moved).

Local Abbreviation m4 := (effect (OpRunStreaming (startCmd p) "pg_ctl") m3).
Local Abbreviation m5 :=
  (effect (OpRunStreaming (dumpCmd p) "pg_dumpall") m4).
Local Abbreviation m6 := (effect (OpRunStreaming (stopCmd p) "pg_ctl") m5).
Local Abbreviation m7 := (effect (OpRunStreaming (sanitizeCmd p) "sed") m6).
Local Abbreviation m8 := (effect (OpRename p (p ++ ".old")) m7).
Local Abbreviation m9 := (effect (OpRunStreaming (initCmd p) "initdb") m8).
Local Abbreviation m10 := (effect (OpRunStreaming (startCmd p) "pg_ctl") m9).
Local Abbreviation m11 :=
  (effect (OpRunStreaming (restoreCmd p) "psql") m10).
Local Abbreviation m12 := (effect (OpRunStreaming (stopCmd p) "pg_ctl") m11).

Lemma at_dump : m5 = mkMachine written (Some kD).
Proof. reflexivity. Qed.

Lemma at_rename : m7 = mkMachine sanitized None.
Proof.
  change m7
    with (effect (OpRunStreaming (sanitizeCmd p) "sed")
            (mkMachine written None)).
  apply fs_sanitize, fs_set_same.
Qed.

Lemma at_initdb : m8 = mkMachine moved None.
Proof. now rewrite effect_rename, at_rename. Qed.

Lemma at_second_start : m9 = mkMachine fresh None.
Proof. now rewrite fs_initdb, at_initdb. Qed.

Lemma at_restore : m10 = mkMachine fresh (Some kD).
Proof. now rewrite fs_start, at_second_start. Qed.

Lemma at_last_stop : p <> "" -> m11 = mkMachine fresh (Some kD).
Proof.
  intros Hp. rewrite <- at_restore. apply fs_restore_missing.
  exact (restore_sees_no_dump p _ _ _ _ _ _ _ _ Hp
           eq_refl eq_refl eq_refl eq_refl eq_refl eq_refl eq_refl).
Qed.

Lemma at_removal : p <> "" -> m12 = mkMachine fresh None.
Proof. intros Hp. now rewrite fs_stop, at_last_stop. Qed.

End Along.

(** ** When the destructive operations happen *)

(** X5: whenever the data directory is renamed, no instance runs and
    the dump file is in it. *)
Theorem rename_only_when_stopped_and_dumped env pgData m ev :
  In ev (events (snd (run env pgData m))) ->
  ev_op ev = OpRename pgData (pgData ++ ".old") ->
  postmaster (ev_seen ev) = None
  /\ isFile (lookup (dumpFile pgData) (ev_seen ev)) = true.
Proof.
  intros Hin Hop.
  run_leaves env pgData m; pick_event Hin;
    cbv beta iota delta [ev_op] in Hop; try discriminate.
  all: cbv beta iota delta [ev_seen].
  all: rewrite at_rename.
  all: split; [reflexivity|].
  all: unfold lookup; cbn [fs]; now rewrite fs_set_same.
Qed.

Lemma ends_with3 {A} (l rest : list A) x y z :
  rev l = z :: y :: x :: rest -> l = rev rest ++ [x; y; z].
Proof.
  intros H. rewrite <- (rev_involutive l), H. cbn [rev].
  now rewrite <- !app_assoc.
Qed.

(** X6: whenever the backup is removed, the two operations before the
    removal are the restore and the stop of the instance, and both
    reported success; no instance runs, and the directory at the place
    of the data directory is the one that [initdb] made. *)
Theorem backup_removed_only_after_restore env pgData m ev :
  In ev (events (snd (run env pgData m))) ->
  ev_op ev = OpRemoveAll (pgData ++ ".old") ->
  (exists before restore stop,
     events (snd (run env pgData m)) = before ++ [restore; stop; ev]
     /\ ev_op restore = OpRunStreaming (restoreCmd pgData) "psql"
     /\ ev_result restore = None
     /\ ev_op stop = OpRunStreaming (stopCmd pgData) "pg_ctl"
     /\ ev_result stop = None)
  /\ postmaster (ev_seen ev) = None
  /\ lookup pgData (ev_seen ev) = Some (Dir PgFresh).
Proof.
  intros Hin Hop.
  run_leaves env pgData m; pick_event Hin;
    cbv beta iota delta [ev_op] in Hop; try discriminate.
  all: apply String.eqb_neq in Hset.
  all: cbv beta iota delta [ev_seen snd events].
  all: rewrite at_removal by exact Hset.
  all: split;
    [ eexists _, _, _; split;
      [ apply ends_with3; cbv beta iota delta [rev app]; reflexivity
      | repeat split ]
    | split; [reflexivity|] ].
  all: unfold lookup; cbn [fs]; now rewrite fs_set_same.
Qed.

(** ** What a failed run leaves behind *)

Ltac explicit_machine :=
  rewrite ?lookup_cleanupStop;
  first [ rewrite at_removal by assumption
        | rewrite at_last_stop by assumption | rewrite at_restore
        | rewrite at_second_start | rewrite at_initdb | idtac ];
  rewrite ?at_rename.

(** X7: a run that fails after it has renamed the data directory
    leaves that directory under the backup name, whichever later
    operation failed. *)
Theorem failure_after_rename_keeps_backup env pgData m ev :
  In ev (events (snd (run env pgData m))) ->
  ev_op ev = OpRename pgData (pgData ++ ".old") ->
  ev_result ev = None ->
  fst (run env pgData m) <> None ->
  lookup (pgData ++ ".old") (machine (snd (run env pgData m)))
  = lookup pgData (ev_seen ev)
  /\ lookup pgData (ev_seen ev) <> None.
Proof.
  intros Hin Hop Hok Hfail.
  run_leaves env pgData m; pick_event Hin;
    cbv beta iota delta [ev_op ev_result] in Hop, Hok;
    try discriminate;
    cbv beta iota delta [fst] in Hfail; try contradiction.
  all: apply String.eqb_neq in Hset.
  all: cbv beta iota delta [snd machine ev_seen].
  all: split; [|eapply refusal_rename_exists; eassumption].
  all: explicit_machine; unfold lookup; cbn [fs];
    rewrite ?fs_set_other by now apply old_neq_key.
  all: now rewrite fs_move_dst.
Qed.

Lemma plain_conf : plain "postgresql.conf" = true.
Proof. reflexivity. Qed.

Lemma keep_ensure p dir m :
  lookup p m <> None ->
  lookup p (effect (OpEnsureDirectoryExists dir) m) = lookup p m.
Proof.
  intros Hd. cbv beta iota delta [effect].
  destruct (lookup dir m) eqn:Hdir; [reflexivity|].
  unfold lookup in *. cbn [fs]. unfold fs_set.
  destruct (key_eqb (resolve dir) (resolve p)) eqn:E; [|reflexivity].
  apply key_eqb_eq in E. congruence.
Qed.

Lemma keep_remove p m :
  p <> "" ->
  lookup p (effect (OpRemove (Join p "custom.conf")) m) = lookup p m.
Proof.
  intros Hp. cbv beta iota delta [effect]. unfold lookup. cbn [fs].
  unfold fs_del. now rewrite child_neq_key.
Qed.

(** [sed -i] on a file directly below the data directory leaves the
    entry of the data directory as it is. *)
Lemma keep_sed p n args name m :
  p <> "" -> plain n = true ->
  last args "" = Join p n ->
  lookup p (effect (OpRunStreaming (Command "sed" args) name) m)
  = lookup p m.
Proof.
  intros Hp Hn Hlast.
  change (effect (OpRunStreaming (Command "sed" args) name) m)
    with (match rev args with
          | file :: _ =>
              match lookup file m with
              | Some (File c) =>
                  mkMachine (fs_set (resolve file)
                               (File (SedInPlace args c)) (fs m))
                            (postmaster m)
              | _ => m
              end
          | [] => m
          end).
  destruct (rev args) as [|file rest] eqn:Hrev; [reflexivity|].
  assert (Hfile : file = Join p n).
  { rewrite <- Hlast, <- (rev_involutive args), Hrev. cbn [rev].
    now rewrite last_last. }
  subst file.
  destruct (lookup (Join p n) m) as [[c|d]|]; try reflexivity.
  unfold lookup. cbn [fs]. now rewrite fs_set_other by now apply child_neq_key.
Qed.

Lemma keep_strip p name m :
  p <> "" ->
  lookup p (effect (OpRunStreaming (stripCmd p) name) m) = lookup p m.
Proof.
  intros Hp.
  apply (keep_sed p "postgresql.conf"); [exact Hp|reflexivity|reflexivity].
Qed.

Lemma keep_sanitize p name m :
  p <> "" ->
  lookup p (effect (OpRunStreaming (sanitizeCmd p) name) m) = lookup p m.
Proof.
  intros Hp.
  apply (keep_sed p "downgrade_dump.sql");
    [exact Hp|reflexivity|reflexivity].
Qed.

Lemma keep_dump p name m :
  p <> "" ->
  lookup p (effect (OpRunStreaming (dumpCmd p) name) m) = lookup p m.
Proof.
  intros Hp. rewrite fs_dump. unfold lookup. cbn [fs].
  now rewrite fs_set_other by (apply child_neq_key; [exact Hp|reflexivity]).
Qed.

(** X8: a run that ends without having renamed the data directory
    leaves the entry of the data directory as it found it. *)
Theorem failure_before_rename_keeps_data_directory env pgData m :
  lookup pgData m <> None ->
  (forall ev,
     In ev (events (snd (run env pgData m))) ->
     ev_op ev = OpRename pgData (pgData ++ ".old") ->
     ev_result ev <> None) ->
  lookup pgData (machine (snd (run env pgData m))) = lookup pgData m.
Proof.
  intros Hd Hno.
  run_leaves env pgData m; cbv beta iota delta [snd machine events] in *;
    try reflexivity.
  all: apply String.eqb_neq in Hset.
  all: try (exfalso; eapply Hno;
            [ cbv beta iota delta [In]; do 7 right; left; reflexivity
            | reflexivity | reflexivity ]).
  all: rewrite ?lookup_cleanupStop, ?keep_sanitize, ?lookup_stop,
         ?keep_dump, ?lookup_start, ?keep_strip, ?keep_remove
      by assumption.
  all: now apply keep_ensure.
Qed.

(** X9: a run that returns no error leaves no instance running, and so
    does a run whose cleanup stop succeeded. *)
Theorem no_instance_left_running env pgData m :
  fst (run env pgData m) = None
  \/ (exists stop,
        In stop (events (snd (run env pgData m)))
        /\ ev_op stop = OpRun (cleanupStopCmd pgData)
        /\ ev_result stop = None) ->
  postmaster (machine (snd (run env pgData m))) = None.
Proof.
  intros [Hnil|(stop & Hin & Hop & Hok)].
  - run_leaves env pgData m; cbv beta iota delta [fst] in Hnil;
      try discriminate.
    all: cbv beta iota delta [snd machine].
    all: rewrite effect_removeAll; cbn [postmaster].
    all: now rewrite fs_stop.
  - run_leaves env pgData m; pick_event Hin;
      cbv beta iota delta [ev_op ev_result] in Hop, Hok;
      try discriminate.
    all: reflexivity.
Qed.

(** ** What the executor's own operations leave alone *)

Section Frame.

Variable env : Env.
Variable p : string.
Variable q : key.
Hypothesis Hp : p <> "".
Hypothesis HD : under (resolve p) q = false.
Hypothesis HO : under (resolve (p ++ ".old")) q = false.
Hypothesis HS : under (resolve (GetSocketDir env)) q = false.

Lemma inside_neq d k : under d q = false -> under d k = true ->
  key_eqb k q = false.
Proof.
  intros Hq Hk. apply not_true_is_false. intros E.
  apply key_eqb_eq in E. congruence.
Qed.

Lemma child_inside n :
  plain n = true -> under (resolve p) (resolve (Join p n)) = true.
Proof. intros Hn. rewrite (resolve_Join p n Hp Hn). apply under_child. Qed.

Lemma frame_ensure m :
  fs (effect (OpEnsureDirectoryExists (GetSocketDir env)) m) q = fs m q.
Proof.
  cbv beta iota delta [effect].
  destruct (lookup (GetSocketDir env) m); [reflexivity|].
  cbn [fs]. rewrite fs_set_other; [reflexivity|].
  apply (inside_neq _ _ HS), under_refl.
Qed.

Lemma frame_remove m :
  fs (effect (OpRemove (Join p "custom.conf")) m) q = fs m q.
Proof.
  cbv beta iota delta [effect]. cbn [fs]. unfold fs_del.
  now rewrite (inside_neq _ _ HD) by now apply child_inside.
Qed.

Lemma frame_rename m :
  fs (effect (OpRename p (p ++ ".old")) m) q = fs m q.
Proof. rewrite effect_rename. cbn [fs]. unfold fs_move. now rewrite HO, HD. Qed.

Lemma frame_removeAll m :
  fs (effect (OpRemoveAll (p ++ ".old")) m) q = fs m q.
Proof. rewrite effect_removeAll. cbn [fs]. now apply fs_delTree_outside. Qed.

End Frame.

(** X10: each operation the executor performs itself, not through a
    tool (making the socket directory, removing [custom.conf], the
    rename, removing the backup), leaves every location as it finds it
    that is neither at or below the data directory, nor at or below the
    backup name, nor at, below or above the socket directory. *)
Theorem own_operations_leave_foreign_locations env pgData m q ev :
  foreign env pgData q = true ->
  In ev (events (snd (run env pgData m))) ->
  ownOperation (ev_op ev) = true ->
  fs (effect (ev_op ev) (ev_seen ev)) q = fs (ev_seen ev) q.
Proof.
  unfold foreign. intros H Hin Hown.
  apply andb_true_iff in H as [H _]. apply andb_true_iff in H as [H HS].
  apply andb_true_iff in H as [HD HO].
  apply negb_true_iff in HD, HO, HS.
  run_leaves env pgData m; pick_event Hin;
    cbv beta iota delta [ev_op ownOperation] in Hown; try discriminate.
  all: apply String.eqb_neq in Hset.
  all: cbv beta iota delta [ev_op ev_seen].
  all: first
    [ apply (frame_ensure env q HS)
    | apply (frame_remove pgData q Hset HD)
    | apply (frame_rename pgData q HD HO)
    | apply (frame_removeAll pgData q HO) ].
Qed.

(** ** A data directory parameter that ends in a slash *)

Lemma append_assoc (a b c : string) : ((a ++ b) ++ c = a ++ b ++ c)%string.
Proof. induction a; simpl; congruence. Qed.

Lemma resolve_trailing_slash p : p <> "" -> resolve (p ++ "/") = resolve p.
Proof.
  intros Hp. unfold resolve. rewrite (rooted_app p _ Hp).
  change (p ++ "/")%string with (p ++ "/" ++ "")%string.
  rewrite split_app_slash, fold_left_app. reflexivity.
Qed.

(** With a slash at the end of the data directory parameter the backup
    name lies in the data directory, and the rename is refused. *)
Lemma rename_refused_with_trailing_slash env p m :
  outcome env (OpRename (p ++ "/") ((p ++ "/") ++ ".old")) m <> None.
Proof.
  unfold outcome, refusal.
  destruct (lookup (p ++ "/") m); [|discriminate].
  assert (Hne : (p ++ "/")%string <> "") by (destruct p; discriminate).
  rewrite (old_neq_key _ Hne). cbn [negb]. rewrite andb_true_r.
  assert (Hu : under (resolve (p ++ "/")) (resolve ((p ++ "/") ++ ".old"))
               = true).
  { destruct (string_dec p "") as [->|Hp]; [reflexivity|].
    rewrite append_assoc.
    rewrite (resolve_child p ".old" Hp eq_refl), resolve_trailing_slash
      by exact Hp.
    apply under_child. }
  rewrite Hu. discriminate.
Qed.

(** X11: with a data directory parameter that ends in a slash, no run
    returns without an error. *)
Theorem trailing_slash_never_succeeds env p m :
  fst (run env (p ++ "/") m) <> None.
Proof.
  run_leaves env (p ++ "/")%string m; cbv beta iota delta [fst];
    try discriminate.
  all: exfalso;
    eapply (rename_refused_with_trailing_slash env p); eassumption.
Qed.

(** ** On the sample host *)

Lemma nil_only_after_every_step_witness :
  fst quietRun = None
  /\ map ev_op (events (snd quietRun)) = plan quiet "/var/lib/pg".
Proof.
  unfold quietRun.
  assert (H : fst (run quiet "/var/lib/pg" host) = None)
    by (vm_compute; reflexivity).
  split; [exact H|].
  exact (proj1 (proj2 (nil_only_after_every_step quiet "/var/lib/pg" host
                         H))).
Defined.

Lemma first_failure_is_returned_witness :
  fst renameRun
  = Some (Wrapf "failed to rename PGDATA" (errors_New "permission denied"))
  /\ exists before ev,
       events (snd renameRun) = before ++ [ev]
       /\ forallb succeeded before = true
       /\ ev_result ev = Some (errors_New "permission denied").
Proof.
  unfold renameRun.
  assert (H : fst (run failingRename "/var/lib/pg" host)
              = Some (Wrapf "failed to rename PGDATA"
                            (errors_New "permission denied")))
    by (vm_compute; reflexivity).
  split; [exact H|].
  destruct (first_failure_is_returned failingRename "/var/lib/pg" host _ H)
    as [(Hempty & _)|(before & ev & cause & Hshape & Hb & _ & Hr & Hu)];
    [discriminate Hempty|].
  injection Hu as <-.
  destruct Hshape as [Hlog|(stop & Hlog & Hstop)].
  - exists before, ev. split; [exact Hlog|]. split; [exact Hb|exact Hr].
  - exfalso. apply (f_equal (fun l => map ev_op (rev l))) in Hlog.
    rewrite rev_app_distr in Hlog. cbn [rev app map] in Hlog.
    rewrite Hstop in Hlog. vm_compute in Hlog. discriminate Hlog.
Defined.

Lemma rename_only_when_stopped_and_dumped_witness :
  In (eventAt 7 (snd quietRun)) (events (snd quietRun))
  /\ ev_op (eventAt 7 (snd quietRun))
     = OpRename "/var/lib/pg" "/var/lib/pg.old"
  /\ postmaster (ev_seen (eventAt 7 (snd quietRun))) = None
  /\ isFile (lookup "/var/lib/pg/downgrade_dump.sql"
                    (ev_seen (eventAt 7 (snd quietRun)))) = true.
Proof.
  unfold quietRun.
  assert (H1 : In (eventAt 7 (snd (run quiet "/var/lib/pg" host)))
                  (events (snd (run quiet "/var/lib/pg" host))))
    by (apply eventAt_In; vm_compute; lia).
  assert (H2 : ev_op (eventAt 7 (snd (run quiet "/var/lib/pg" host)))
               = OpRename "/var/lib/pg" ("/var/lib/pg" ++ ".old"))
    by (vm_compute; reflexivity).
  split; [exact H1|]. split; [exact H2|].
  exact (rename_only_when_stopped_and_dumped quiet "/var/lib/pg" host _
           H1 H2).
Defined.

Lemma backup_removed_only_after_restore_witness :
  In (eventAt 12 (snd quietRun)) (events (snd quietRun))
  /\ ev_op (eventAt 12 (snd quietRun)) = OpRemoveAll "/var/lib/pg.old"
  /\ postmaster (ev_seen (eventAt 12 (snd quietRun))) = None
  /\ lookup "/var/lib/pg" (ev_seen (eventAt 12 (snd quietRun)))
     = Some (Dir PgFresh).
Proof.
  unfold quietRun.
  assert (H1 : In (eventAt 12 (snd (run quiet "/var/lib/pg" host)))
                  (events (snd (run quiet "/var/lib/pg" host))))
    by (apply eventAt_In; vm_compute; lia).
  assert (H2 : ev_op (eventAt 12 (snd (run quiet "/var/lib/pg" host)))
               = OpRemoveAll ("/var/lib/pg" ++ ".old"))
    by (vm_compute; reflexivity).
  split; [exact H1|]. split; [exact H2|].
  exact (proj2 (backup_removed_only_after_restore quiet "/var/lib/pg" host
                  _ H1 H2)).
Defined.

Lemma failure_after_rename_keeps_backup_witness :
  In (eventAt 7 (snd psqlRun)) (events (snd psqlRun))
  /\ ev_op (eventAt 7 (snd psqlRun))
     = OpRename "/var/lib/pg" "/var/lib/pg.old"
  /\ ev_result (eventAt 7 (snd psqlRun)) = None
  /\ fst psqlRun <> None
  /\ lookup "/var/lib/pg.old" (machine (snd psqlRun))
     = lookup "/var/lib/pg" (ev_seen (eventAt 7 (snd psqlRun))).
Proof.
  unfold psqlRun.
  assert (H1 : In (eventAt 7 (snd (run psqlNeedsFile "/var/lib/pg" host)))
                  (events (snd (run psqlNeedsFile "/var/lib/pg" host))))
    by (apply eventAt_In; vm_compute; lia).
  assert (H2 : ev_op (eventAt 7 (snd (run psqlNeedsFile "/var/lib/pg"
                                         host)))
               = OpRename "/var/lib/pg" ("/var/lib/pg" ++ ".old"))
    by (vm_compute; reflexivity).
  assert (H3 : ev_result (eventAt 7 (snd (run psqlNeedsFile "/var/lib/pg"
                                             host)))
               = None)
    by (vm_compute; reflexivity).
  assert (H4 : fst (run psqlNeedsFile "/var/lib/pg" host) <> None)
    by (vm_compute; discriminate).
  split; [exact H1|]. split; [exact H2|]. split; [exact H3|].
  split; [exact H4|].
  exact (proj1 (failure_after_rename_keeps_backup psqlNeedsFile
                  "/var/lib/pg" host _ H1 H2 H3 H4)).
Defined.

Lemma dumpRun_never_renames ev :
  In ev (events (snd (run (failingTool "pg_dumpall") "/var/lib/pg" host))) ->
  ev_op ev = OpRename "/var/lib/pg" ("/var/lib/pg" ++ ".old") ->
  ev_result ev <> None.
Proof.
  intros Hin Hop.
  apply (in_map ev_op) in Hin. rewrite Hop in Hin.
  exfalso.
  assert (Hops : map ev_op
                   (events (snd (run (failingTool "pg_dumpall")
                                     "/var/lib/pg" host)))
                 = firstn 5 (plan (failingTool "pg_dumpall") "/var/lib/pg")
                   ++ [OpRun (cleanupStopCmd "/var/lib/pg")])
    by (vm_compute; reflexivity).
  rewrite Hops in Hin. cbn [firstn plan app In] in Hin.
  repeat (destruct Hin as [Hin|Hin]; [discriminate Hin|]).
  exact Hin.
Qed.

Lemma failure_before_rename_keeps_data_directory_witness :
  lookup "/var/lib/pg" host <> None
  /\ lookup "/var/lib/pg" (machine (snd dumpRun)) = lookup "/var/lib/pg" host.
Proof.
  unfold dumpRun.
  assert (H1 : lookup "/var/lib/pg" host <> None)
    by (vm_compute; discriminate).
  split; [exact H1|].
  exact (failure_before_rename_keeps_data_directory
           (failingTool "pg_dumpall") "/var/lib/pg" host H1
           dumpRun_never_renames).
Defined.

Lemma no_instance_left_running_witness :
  fst quietRun = None /\ postmaster (machine (snd quietRun)) = None.
Proof.
  unfold quietRun.
  assert (H : fst (run quiet "/var/lib/pg" host) = None)
    by (vm_compute; reflexivity).
  split; [exact H|].
  exact (no_instance_left_running quiet "/var/lib/pg" host (or_introl H)).
Defined.

Lemma own_operations_leave_foreign_locations_witness :
  foreign quiet "/var/lib/pg" (resolve "/etc/passwd") = true
  /\ In (eventAt 7 (snd quietRun)) (events (snd quietRun))
  /\ ownOperation (ev_op (eventAt 7 (snd quietRun))) = true
  /\ fs (effect (ev_op (eventAt 7 (snd quietRun)))
                (ev_seen (eventAt 7 (snd quietRun))))
        (resolve "/etc/passwd")
     = fs (ev_seen (eventAt 7 (snd quietRun))) (resolve "/etc/passwd").
Proof.
  unfold quietRun.
  assert (H1 : foreign quiet "/var/lib/pg" (resolve "/etc/passwd") = true)
    by (vm_compute; reflexivity).
  assert (H2 : In (eventAt 7 (snd (run quiet "/var/lib/pg" host)))
                  (events (snd (run quiet "/var/lib/pg" host))))
    by (apply eventAt_In; vm_compute; lia).
  assert (H3 : ownOperation
                 (ev_op (eventAt 7 (snd (run quiet "/var/lib/pg" host))))
               = true)
    by (vm_compute; reflexivity).
  split; [exact H1|]. split; [exact H2|]. split; [exact H3|].
  exact (own_operations_leave_foreign_locations quiet "/var/lib/pg" host
           _ _ H1 H2 H3).
Defined.

(** ** What the tools find *)

(** X12: the export and the restore are only run against an instance
    started on the data directory. *)
Theorem export_and_restore_find_instance_started env pgData m ev :
  In ev (events (snd (run env pgData m))) ->
  ev_op ev = OpRunStreaming (dumpCmd pgData) "pg_dumpall"
  \/ ev_op ev = OpRunStreaming (restoreCmd pgData) "psql" ->
  postmaster (ev_seen ev) = Some (resolve pgData).
Proof.
  intros Hin Hop.
  run_leaves env pgData m; pick_event Hin;
    cbv beta iota delta [ev_op] in Hop;
    try (destruct Hop as [Hop|Hop]; discriminate Hop).
  all: cbv beta iota delta [ev_seen].
  all: first [reflexivity | now rewrite at_restore].
Qed.

(** X13: [initdb] is only run when nothing is at the place of the data
    directory, the former data directory is under the backup name, and
    no instance runs. *)
Theorem initdb_finds_vacant_location env pgData m ev :
  In ev (events (snd (run env pgData m))) ->
  ev_op ev = OpRunStreaming (initCmd pgData) "initdb" ->
  lookup pgData (ev_seen ev) = None
  /\ lookup (pgData ++ ".old") (ev_seen ev) <> None
  /\ postmaster (ev_seen ev) = None.
Proof.
  intros Hin Hop.
  run_leaves env pgData m; pick_event Hin;
    cbv beta iota delta [ev_op] in Hop; try discriminate.
  all: apply String.eqb_neq in Hset.
  all: cbv beta iota delta [ev_seen].
  all: match goal with
       | H : outcome _ (OpRename _ _) _ = None |- _ =>
           apply refusal_rename_exists in H; rewrite at_rename in H;
           rewrite lookup_mk in H
       end.
  all: rewrite at_initdb, !lookup_mk.
  all: split; [apply fs_move_src; now apply not_under_old|].
  all: split; [now rewrite fs_move_dst|reflexivity].
Qed.

(** ** A data directory that is not there *)



Lemma export_and_restore_find_instance_started_witness :
  In (eventAt 4 (snd quietRun)) (events (snd quietRun))
  /\ ev_op (eventAt 4 (snd quietRun))
     = OpRunStreaming (dumpCmd "/var/lib/pg") "pg_dumpall"
  /\ postmaster (ev_seen (eventAt 4 (snd quietRun)))
     = Some (resolve "/var/lib/pg").
Proof.
  unfold quietRun.
  assert (H1 : In (eventAt 4 (snd (run quiet "/var/lib/pg" host)))
                  (events (snd (run quiet "/var/lib/pg" host))))
    by (apply eventAt_In; vm_compute; lia).
  assert (H2 : ev_op (eventAt 4 (snd (run quiet "/var/lib/pg" host)))
               = OpRunStreaming (dumpCmd "/var/lib/pg") "pg_dumpall")
    by (vm_compute; reflexivity).
  split; [exact H1|]. split; [exact H2|].
  exact (export_and_restore_find_instance_started quiet "/var/lib/pg" host
           _ H1 (or_introl H2)).
Defined.

Lemma initdb_finds_vacant_location_witness :
  In (eventAt 8 (snd quietRun)) (events (snd quietRun))
  /\ ev_op (eventAt 8 (snd quietRun))
     = OpRunStreaming (initCmd "/var/lib/pg") "initdb"
  /\ lookup "/var/lib/pg" (ev_seen (eventAt 8 (snd quietRun))) = None.
Proof.
  unfold quietRun.
  assert (H1 : In (eventAt 8 (snd (run quiet "/var/lib/pg" host)))
                  (events (snd (run quiet "/var/lib/pg" host))))
    by (apply eventAt_In; vm_compute; lia).
  assert (H2 : ev_op (eventAt 8 (snd (run quiet "/var/lib/pg" host)))
               = OpRunStreaming (initCmd "/var/lib/pg") "initdb")
    by (vm_compute; reflexivity).
  split; [exact H1|]. split; [exact H2|].
  exact (proj1 (initdb_finds_vacant_location quiet "/var/lib/pg" host
                  _ H1 H2)).
Defined.


End ExecutorMore.

(* ================================================================= *)
(** * More about the trigger *)

Module TriggerMore.

Import majorupgrade samples Trigger.

Section Reconcile.

Variable GetPostgresqlMajorVersion : Cluster -> Z * option error.
Variable getPrimarySerial : list PersistentVolumeClaim -> Z * option error.
Variable PhaseMajorUpgrade : string.

Local Abbreviation Reconcile :=
  (ReconcileDowngrade GetPostgresqlMajorVersion getPrimarySerial
                      PhaseMajorUpgrade).

Local Abbreviation sent :=
  (issued GetPostgresqlMajorVersion getPrimarySerial PhaseMajorUpgrade).

Local Abbreviation course :=
  (Reconcile_course GetPostgresqlMajorVersion getPrimarySerial
                    PhaseMajorUpgrade).

(** ** What an invocation returns *)

(** X15: an invocation returns a result exactly when it has added a
    unit; the result asks for a requeue and comes with no error; and an
    invocation that returns neither a result nor an error has left the
    state as it was. *)
Theorem result_exactly_when_unit_added c instances pvcs st :
  (fst (fst (ReconcileDowngrade GetPostgresqlMajorVersion getPrimarySerial
               PhaseMajorUpgrade c instances pvcs st)) <> None
   <-> jobs (snd (Reconcile c instances pvcs st)) <> jobs st)
  /\ (forall r,
        fst (fst (Reconcile c instances pvcs st)) = Some r ->
        Requeue r = true
        /\ snd (fst (Reconcile c instances pvcs st)) = None)
  /\ (fst (Reconcile c instances pvcs st) = (None, None) ->
      snd (Reconcile c instances pvcs st) = st).
Proof.
  destruct (course c instances pvcs st); cbn [fst snd jobs].
  1-6: split; [split; intros Hx; now destruct Hx|];
       split; [discriminate|]; try reflexivity; discriminate.
  split; [split; [intros _; apply snoc_neq|discriminate]|].
  split; [|discriminate].
  intros r Hr. injection Hr as <-. now split.
Qed.

(** ** What an invocation leaves alone *)

(** X16: an invocation changes nothing of the cluster but the phase
    and its reason, keeps the units that exist and adds at most one,
    and makes at most two requests; if it makes none, the state is as
    it was. *)
Theorem reconcile_keeps_what_exists c instances pvcs st :
  Name (cluster (snd (Reconcile c instances pvcs st))) = Name (cluster st)
  /\ ImageName (cluster (snd (Reconcile c instances pvcs st)))
     = ImageName (cluster st)
  /\ Status_PGDataImageInfo (cluster (snd (Reconcile c instances pvcs st)))
     = Status_PGDataImageInfo (cluster st)
  /\ (exists added,
        jobs (snd (Reconcile c instances pvcs st)) = jobs st ++ added
        /\ length added <= 1)
  /\ requests (snd (Reconcile c instances pvcs st))
     = requests st
       ++ issued GetPostgresqlMajorVersion getPrimarySerial
                 PhaseMajorUpgrade c instances pvcs st
  /\ length (sent c instances pvcs st) <= 2
  /\ (sent c instances pvcs st = [] ->
      snd (Reconcile c instances pvcs st) = st).
Proof.
  unfold issued.
  destruct (course c instances pvcs st);
    cbn [fst snd jobs requests cluster setPhase Name ImageName
         Status_PGDataImageInfo];
    rewrite ?skipn_self, ?skipn_snoc1, ?skipn_snoc2, ?app_nil_r;
    cbn [length].
  1-6: repeat split; try lia; try discriminate;
       try (exists []; rewrite app_nil_r; split; [reflexivity|cbn; lia]);
       now rewrite <- ?app_assoc.
  repeat split; try lia; try discriminate.
  - eexists. split; [reflexivity|cbn; lia].
  - now rewrite <- app_assoc.
Qed.

(** ** Failures *)

(** X17: nothing is taken back.  When the phase was recorded and a
    later call fails (the owner reference or the creation), the
    invocation returns the error and no result, the cluster stays in
    the phase [PhaseMajorUpgrade] with the reason of the request, and
    no unit is added. *)
Theorem failure_after_phase_keeps_phase c instances pvcs st reason :
  In (ReqPhase PhaseMajorUpgrade reason)
     (issued GetPostgresqlMajorVersion getPrimarySerial PhaseMajorUpgrade
             c instances pvcs st) ->
  phase_fault c PhaseMajorUpgrade reason st = None ->
  snd (fst (Reconcile c instances pvcs st)) <> None ->
  Status_Phase (cluster (snd (Reconcile c instances pvcs st)))
  = PhaseMajorUpgrade
  /\ Status_PhaseReason (cluster (snd (Reconcile c instances pvcs st)))
     = reason
  /\ jobs (snd (Reconcile c instances pvcs st)) = jobs st
  /\ fst (fst (Reconcile c instances pvcs st)) = None.
Proof.
  unfold issued. intros Hin Hok Herr.
  destruct (course c instances pvcs st);
    cbn [fst snd jobs requests cluster] in Hin, Herr |- *;
    rewrite ?skipn_self, ?skipn_snoc1, ?skipn_snoc2 in Hin;
    cbn [In] in Hin;
    try contradiction.
  - destruct Hin as [Hin|[]]. injection Hin as <-. congruence.
  - destruct Hin as [Hin|[]]. injection Hin as <-. now repeat split.
  - destruct Hin as [Hin|[Hin|[]]]; [|discriminate].
    injection Hin as <-. now repeat split.
Qed.

(** X18: the trigger adds no error of its own and wraps none: an error
    it returns is the error of the parse of the declared version, of
    the lookup of the primary, of the phase request, of the lookup of
    the owner in the scheme, or of the creation. *)
Theorem errors_are_passed_on c instances pvcs st e :
  snd (fst (ReconcileDowngrade GetPostgresqlMajorVersion getPrimarySerial
              PhaseMajorUpgrade c instances pvcs st)) = Some e ->
  snd (GetPostgresqlMajorVersion (cluster st)) = Some e
  \/ snd (getPrimarySerial pvcs) = Some e
  \/ (exists reason, phase_fault c PhaseMajorUpgrade reason st = Some e)
  \/ Scheme_fault c (cluster (snd (Reconcile c instances pvcs st))) = Some e
  \/ (exists job st', create_fault c job st' = Some e).
Proof.
  unfold ReconcileDowngrade, bind, readCluster, ret.
  destruct (GetPostgresqlMajorVersion (cluster st)) as [t [e0|]];
    cbn [fst snd]; [now left|].
  destruct (Status_PGDataImageInfo (cluster st)) as [info|];
    [|discriminate].
  destruct (t >=? MajorVersion info)%Z; [discriminate|].
  destruct (getPrimarySerial pvcs) as [n [e0|]]; cbn [isSome orb fst snd];
    [now right; left|].
  destruct (n =? 0)%Z; [discriminate|].
  unfold registerPhase.
  destruct (phase_fault c PhaseMajorUpgrade _ st) as [e0|] eqn:Hp;
    cbn [fst snd].
  { intros He. right. right. left. eexists. rewrite <- He. exact Hp. }
  cbn [cluster]. unfold ctrl_SetControllerReference.
  destruct (Scheme_fault c _) as [e0|] eqn:Hs; cbn [fst snd cluster].
  { intros He. right. right. right. left. rewrite <- He. exact Hs. }
  unfold Create.
  match goal with
  | |- context [create_fault c ?j ?s] =>
      destruct (create_fault c j s) as [e0|] eqn:Hc
  end; cbn [fst snd]; [|discriminate].
  intros He. do 4 right. eexists _, _. rewrite <- He. exact Hc.
Qed.

End Reconcile.

(** ** The sample cluster with a client that refuses to create *)

Local Abbreviation reconcile :=
  (ReconcileDowngrade declaredMajor primarySerial phaseMajorUpgrade).

Lemma failure_after_phase_keeps_phase_witness :
  In (ReqPhase phaseMajorUpgrade "Downgrading cluster from version 17 to 15")
     (issued declaredMajor primarySerial phaseMajorUpgrade
             refusing [] members pg17to15)
  /\ snd (fst (reconcile refusing [] members pg17to15)) <> None
  /\ Status_Phase (cluster (snd (reconcile refusing [] members pg17to15)))
     = phaseMajorUpgrade
  /\ jobs (snd (reconcile refusing [] members pg17to15)) = jobs pg17to15.
Proof.
  assert (H1 : In (ReqPhase phaseMajorUpgrade
                     "Downgrading cluster from version 17 to 15")
                  (issued declaredMajor primarySerial phaseMajorUpgrade
                          refusing [] members pg17to15))
    by (vm_compute; left; reflexivity).
  assert (H2 : phase_fault refusing phaseMajorUpgrade
                 "Downgrading cluster from version 17 to 15" pg17to15
               = None) by reflexivity.
  assert (H3 : snd (fst (reconcile refusing [] members pg17to15)) <> None)
    by (vm_compute; discriminate).
  split; [exact H1|]. split; [exact H3|].
  destruct (failure_after_phase_keeps_phase declaredMajor primarySerial
              phaseMajorUpgrade refusing [] members pg17to15 _ H1 H2 H3)
    as (R1 & _ & R3 & _).
  split; [exact R1|exact R3].
Defined.

Lemma errors_are_passed_on_witness :
  snd (fst (reconcile refusing [] members pg17to15))
  = Some (errors_New "forbidden")
  /\ (snd (declaredMajor (cluster pg17to15)) = Some (errors_New "forbidden")
      \/ snd (primarySerial members) = Some (errors_New "forbidden")
      \/ (exists reason,
            phase_fault refusing phaseMajorUpgrade reason pg17to15
            = Some (errors_New "forbidden"))
      \/ Scheme_fault refusing
           (cluster (snd (reconcile refusing [] members pg17to15)))
         = Some (errors_New "forbidden")
      \/ (exists job st',
            create_fault refusing job st' = Some (errors_New "forbidden"))).
Proof.
  assert (H : snd (fst (reconcile refusing [] members pg17to15))
              = Some (errors_New "forbidden"))
    by (vm_compute; reflexivity).
  split; [exact H|].
  exact (errors_are_passed_on declaredMajor primarySerial phaseMajorUpgrade
           refusing [] members pg17to15 _ H).
Defined.

End TriggerMore.
